(** * Arcane Code Editor: the spell API, the physics task and the event bus

    A shallow embedding of [arcane_editor.py].  The Tk widgets and the
    Panda3D scene graph are collaborators: of a [NodePath] only the position,
    the scale and the colour are kept, of the Tk variables only their text.

    Python objects that the program mutates in place are kept in stores and
    named by their index: [Vec3] vectors ([orb.velocity *= 0.98] and
    [entity.velocity += ...] update the vector object itself, and
    [_parse_vec] hands a [Vec3] through without copying it) and [NodePath]s
    (the player, its hands and its feet share one node).  An orb is named by
    its index in [self.orbs]; the methods of the program never remove an orb
    from that list.

    Callbacks and spells are Python code of the player.  The event bus and
    the physics task are given twice: first for callbacks that return or
    raise an exception deriving from [Exception], then, in the module
    [Escaping], for callbacks that may raise any exception; the two agree on
    callbacks of the first kind ([trigger_from_any_ending],
    [physics_from_any_ending]). *)

From stdpp Require Import base numbers option list strings gmap pretty.
From Stdlib Require Import QArith.
Close Scope Q_scope.

(** ** Numbers

    Panda3D vectors hold machine floats.  The development is generic in the
    scalar type: a scalar type gives the value of a decimal literal, addition,
    multiplication and the comparison [<=].  No law is assumed of them. *)

Class Scalar (F : Type) := {
  lit : Q -> F;
  fadd : F -> F -> F;
  fmul : F -> F -> F;
  fle : F -> F -> bool
}.

(** Exact rational arithmetic, used to run the definitions on examples. *)
Definition Q_scalar : Scalar Q := {|
  lit q := Qred q;
  fadd x y := Qred (x + y);
  fmul x y := Qred (x * y);
  fle x y := Qle_bool x y
|}.

(** ** Exceptions and results *)

Inductive exn := Exn (cls : string) (msg : string).

(** [str(exc)] *)
Definition str (e : exn) : string := match e with Exn _ m => m end.

Definition RuntimeError (msg : string) : exn := Exn "RuntimeError" msg.
Definition NameError (msg : string) : exn := Exn "NameError" msg.
Definition ImportError (msg : string) : exn := Exn "ImportError" msg.
Definition AttributeError (msg : string) : exn := Exn "AttributeError" msg.
Definition SyntaxError (msg : string) : exn := Exn "SyntaxError" msg.

(** How code ends that raises no exception but of classes deriving from
    Python's [Exception]: the methods of the spell API, and the callbacks
    taken in the sections on the event bus and the physics task. *)
Inductive result (A : Type) :=
| Ok (a : A)
| Raise (e : exn).
Arguments Ok {A} a.
Arguments Raise {A} e.

(** How any Python code ends: it returns, it raises an exception whose class
    derives from [Exception], or it raises one whose class does not
    ([SystemExit], [KeyboardInterrupt], [GeneratorExit], a class made from
    [BaseException]).  Both [except] clauses of the program name [Exception]
    and let the last kind through. *)
Inductive ending (A : Type) :=
| Returns (a : A)
| Raises (e : exn)
| Exits (e : exn).
Arguments Returns {A} a.
Arguments Raises {A} e.
Arguments Exits {A} e.

Definition ended {A : Type} (r : result A) : ending A :=
  match r with
  | Ok a => Returns a
  | Raise e => Raises e
  end.

(** ** References and Python values seen by spell code *)

Inductive EntRef := EGround | EPlayer | EHands | EFeet | EOrb (i : nat).

Inductive Element := Fire | Water.

Definition element_name (e : Element) : string :=
  match e with Fire => "fire" | Water => "water" end.

Inductive api := ACreateOrb | AUseFire | AUseWater | AApplyForceTo | AOnEvent.
Inductive builtin := BRange | BMin | BMax.

Inductive pytype :=
| TNoneType | TBool | TInt | TStr | TVec3 | TEntity | TPlayer | TOrb
| TMethod | TBuiltinFunction | TDict | TModule | TMagicEditor | TType
| TMemberDescriptor | TGetSetDescriptor.

Inductive value :=
| VNone
| VBool (b : bool)
| VInt (n : Z)
| VStr (s : string)
| VVec3 (r : nat)
| VEntity (e : EntRef)
| VMethod (a : api)          (* a bound method of the application: self.create_orb, ... *)
| VBuiltin (b : builtin)
| VBuiltinsDict              (* the dict allowed_builtins *)
| VBuiltinsModule
| VApp                       (* the MagicEditor instance *)
| VType (t : pytype)
| VDescriptor (t : pytype).  (* the descriptor of __self__ in the class t *)

(** A callback registered by spell code is named by a number; what it does
    when called is given by the environment ([run_cb] below). *)
Definition cbid := nat.

(** The argument of [create_orb] and [apply_force_to]: a sequence of three
    numbers, or a [Vec3] object. *)
Inductive force_value (F : Type) :=
| FSeq (x y z : F)
| FVec3 (r : nat).
Arguments FSeq {F} x y z.
Arguments FVec3 {F} r.

Section Editor.
Context {F : Type} `{Scalar F}.

(** ** Vectors and nodes *)

Record Vec3 := mkVec3 { vx : F; vy : F; vz : F }.

Definition vadd (a b : Vec3) : Vec3 :=
  mkVec3 (fadd (vx a) (vx b)) (fadd (vy a) (vy b)) (fadd (vz a) (vz b)).

(** [v * s] *)
Definition vscale (v : Vec3) (s : F) : Vec3 :=
  mkVec3 (fmul (vx v) s) (fmul (vy v) s) (fmul (vz v) s).

(** [Vec3(0, 0, 0)] *)
Definition vzero : Vec3 := mkVec3 (lit 0) (lit 0) (lit 0).

(** The friction factor of [update_physics]. *)
Definition damping : F := lit (98 # 100).

Record NodePath := mkNode {
  pos : Vec3;
  scale : F;
  color : option (F * F * F * F)
}.

Definition fresh_node : NodePath := mkNode vzero (lit 1) None.

(** ** Entities *)

Record Entity := mkEntity {
  name : string;
  node : nat;       (* index in the node store *)
  velocity : nat    (* index in the vector store *)
}.

Record Player := mkPlayer {
  player_entity : Entity;
  mana : Z;
  fire : Z;
  water : Z;
  hands : Entity;
  feet : Entity
}.

Record Orb := mkOrb {
  orb_entity : Entity;
  element : option Element     (* None, "fire" or "water" *)
}.

(** ** The application state *)

Record MagicEditor := mkEditor {
  nodes : list NodePath;
  vecs : list Vec3;
  ground : Entity;
  player : Player;
  orbs : list Orb;
  event_handlers : gmap string (list cbid);
  stdout : list string;
  msg_var : string;
  mana_var : string;
  fire_var : string;
  water_var : string
}.

Definition set_nodes (x : list NodePath) (w : MagicEditor) : MagicEditor :=
  mkEditor x (vecs w) (ground w) (player w) (orbs w) (event_handlers w)
           (stdout w) (msg_var w) (mana_var w) (fire_var w) (water_var w).
Definition set_vecs (x : list Vec3) (w : MagicEditor) : MagicEditor :=
  mkEditor (nodes w) x (ground w) (player w) (orbs w) (event_handlers w)
           (stdout w) (msg_var w) (mana_var w) (fire_var w) (water_var w).
Definition set_player (x : Player) (w : MagicEditor) : MagicEditor :=
  mkEditor (nodes w) (vecs w) (ground w) x (orbs w) (event_handlers w)
           (stdout w) (msg_var w) (mana_var w) (fire_var w) (water_var w).
Definition set_orbs (x : list Orb) (w : MagicEditor) : MagicEditor :=
  mkEditor (nodes w) (vecs w) (ground w) (player w) x (event_handlers w)
           (stdout w) (msg_var w) (mana_var w) (fire_var w) (water_var w).
Definition set_event_handlers (x : gmap string (list cbid)) (w : MagicEditor)
  : MagicEditor :=
  mkEditor (nodes w) (vecs w) (ground w) (player w) (orbs w) x
           (stdout w) (msg_var w) (mana_var w) (fire_var w) (water_var w).
Definition set_stdout (x : list string) (w : MagicEditor) : MagicEditor :=
  mkEditor (nodes w) (vecs w) (ground w) (player w) (orbs w) (event_handlers w)
           x (msg_var w) (mana_var w) (fire_var w) (water_var w).
Definition set_msg_var (x : string) (w : MagicEditor) : MagicEditor :=
  mkEditor (nodes w) (vecs w) (ground w) (player w) (orbs w) (event_handlers w)
           (stdout w) x (mana_var w) (fire_var w) (water_var w).

Definition set_mana (x : Z) (p : Player) : Player :=
  mkPlayer (player_entity p) x (fire p) (water p) (hands p) (feet p).
Definition set_fire (x : Z) (p : Player) : Player :=
  mkPlayer (player_entity p) (mana p) x (water p) (hands p) (feet p).
Definition set_water (x : Z) (p : Player) : Player :=
  mkPlayer (player_entity p) (mana p) (fire p) x (hands p) (feet p).

Definition set_velocity (r : nat) (e : Entity) : Entity :=
  mkEntity (name e) (node e) r.
Definition set_orb_velocity (r : nat) (o : Orb) : Orb :=
  mkOrb (set_velocity r (orb_entity o)) (element o).
Definition set_element (x : option Element) (o : Orb) : Orb :=
  mkOrb (orb_entity o) x.

(** *** The two object stores *)

(** Reading a vector object. *)
Definition vget (w : MagicEditor) (r : nat) : Vec3 := default vzero (vecs w !! r).

(** Creating a vector object. *)
Definition valloc (v : Vec3) (w : MagicEditor) : nat * MagicEditor :=
  (length (vecs w), set_vecs (vecs w ++ [v]) w).

(** Updating a vector object in place. *)
Definition vput (r : nat) (v : Vec3) (w : MagicEditor) : MagicEditor :=
  set_vecs (<[r := v]> (vecs w)) w.

Definition nget (w : MagicEditor) (r : nat) : NodePath :=
  default fresh_node (nodes w !! r).

(** [self.loader.loadModel(...)] followed by [reparentTo(self.render)] *)
Definition loadModel (w : MagicEditor) : nat * MagicEditor :=
  (length (nodes w), set_nodes (nodes w ++ [fresh_node]) w).

Definition getPos (r : nat) (w : MagicEditor) : Vec3 := pos (nget w r).
Definition getZ (r : nat) (w : MagicEditor) : F := vz (getPos r w).

Definition setPos (r : nat) (p : Vec3) (w : MagicEditor) : MagicEditor :=
  set_nodes (alter (fun n => mkNode p (scale n) (color n)) r (nodes w)) w.
Definition setZ (r : nat) (z : F) (w : MagicEditor) : MagicEditor :=
  set_nodes (alter (fun n => mkNode (mkVec3 (vx (pos n)) (vy (pos n)) z)
                                    (scale n) (color n)) r (nodes w)) w.
Definition setScale (r : nat) (s : F) (w : MagicEditor) : MagicEditor :=
  set_nodes (alter (fun n => mkNode (pos n) s (color n)) r (nodes w)) w.
Definition setColor (r : nat) (c : F * F * F * F) (w : MagicEditor) : MagicEditor :=
  set_nodes (alter (fun n => mkNode (pos n) (scale n) (Some c)) r (nodes w)) w.

(** [print(...)] *)
Definition print (s : string) (w : MagicEditor) : MagicEditor :=
  set_stdout (stdout w ++ [s]) w.

(** *** Constructors of the entity classes *)

(** [Entity.__init__]: a new entity owns a new zero vector. *)
Definition new_Entity (nm : string) (nd : nat) (w : MagicEditor)
  : Entity * MagicEditor :=
  let '(r, w) := valloc vzero w in (mkEntity nm nd r, w).

(** [Player.__init__] *)
Definition new_Player (nd : nat) (w : MagicEditor) : Player * MagicEditor :=
  let '(e, w) := new_Entity "player" nd w in
  let '(h, w) := new_Entity "hands" nd w in
  let '(f, w) := new_Entity "feet" nd w in
  (mkPlayer e 100 50 50 h f, w).

(** [Orb.__init__] *)
Definition new_Orb (nd : nat) (w : MagicEditor) : Orb * MagicEditor :=
  let '(e, w) := new_Entity "orb" nd w in (mkOrb e None, w).

(** ** The spell API *)

(** [_parse_vec]: a [Vec3] is returned as it is (the same object), anything
    else is unpacked into a new [Vec3]. *)
Definition _parse_vec (value : force_value F) (w : MagicEditor)
  : nat * MagicEditor :=
  match value with
  | FVec3 r => (r, w)
  | FSeq x y z => valloc (mkVec3 x y z) w
  end.

(** The vector a force value denotes in a state. *)
Definition force_vec (value : force_value F) (w : MagicEditor) : Vec3 :=
  match value with
  | FVec3 r => vget w r
  | FSeq x y z => mkVec3 x y z
  end.

(** [Vec3(0, 2, 1)], the offset of a new orb from the player. *)
Definition orb_offset : Vec3 := mkVec3 (lit 0) (lit 2) (lit 1).

Definition create_orb (force : force_value F) (self : MagicEditor)
  : MagicEditor * result nat :=
  if (mana (player self) <? 10)%Z then
    (self, Raise (RuntimeError "Not enough mana to create orb"))
  else
    let self := set_player (set_mana (mana (player self) - 10)%Z (player self)) self in
    let '(model, self) := loadModel self in
    let self := setScale model (lit (3 # 10)) self in
    let self :=
      setPos model (vadd (getPos (node (player_entity (player self))) self)
                         orb_offset) self in
    let '(orb, self) := new_Orb model self in
    let '(v, self) := _parse_vec force self in
    let orb := set_orb_velocity v orb in
    let ref := length (orbs self) in
    let self := set_orbs (orbs self ++ [orb]) self in
    (self, Ok ref).

(** The node of the orb an orb reference names. *)
Definition orb_node (orb : nat) (w : MagicEditor) : option nat :=
  (fun o => node (orb_entity o)) <$> orbs w !! orb.

Definition color_of (orb : nat) (c : F * F * F * F) (w : MagicEditor)
  : MagicEditor :=
  match orb_node orb w with
  | Some nd => setColor nd c w
  | None => w
  end.

Definition use_fire (orb : nat) (self : MagicEditor) : MagicEditor * result unit :=
  if (fire (player self) <? 5)%Z then
    (self, Raise (RuntimeError "Not enough fire energy"))
  else
    let self := set_player (set_fire (fire (player self) - 5)%Z (player self)) self in
    let self := set_orbs (alter (set_element (Some Fire)) orb (orbs self)) self in
    let self :=
      color_of orb (lit 1, lit (3 # 10), lit (2 # 10), lit 1) self in
    (self, Ok tt).

Definition use_water (orb : nat) (self : MagicEditor) : MagicEditor * result unit :=
  if (water (player self) <? 5)%Z then
    (self, Raise (RuntimeError "Not enough water energy"))
  else
    let self := set_player (set_water (water (player self) - 5)%Z (player self)) self in
    let self := set_orbs (alter (set_element (Some Water)) orb (orbs self)) self in
    let self :=
      color_of orb (lit (3 # 10), lit (3 # 10), lit 1, lit 1) self in
    (self, Ok tt).

(** The entity an entity reference names; an orb reference names the orb at
    that index of [self.orbs]. *)
Definition entity (e : EntRef) (w : MagicEditor) : option Entity :=
  match e with
  | EGround => Some (ground w)
  | EPlayer => Some (player_entity (player w))
  | EHands => Some (hands (player w))
  | EFeet => Some (feet (player w))
  | EOrb i => orb_entity <$> orbs w !! i
  end.

(** [entity.velocity += self._parse_vec(force_value)]: the vector of the
    entity is updated in place. *)
Definition apply_force_to (e : EntRef) (force : force_value F) (self : MagicEditor)
  : MagicEditor * result unit :=
  match entity e self with
  | Some ent =>
      let target := velocity ent in
      let '(v, self) := _parse_vec force self in
      (vput target (vadd (vget self target) (vget self v)) self, Ok tt)
  | None => (self, Ok tt)
  end.

(** [self.event_handlers[event_type].append(callback)] on a
    [defaultdict(list)] *)
Definition handlers_of (event_type : string) (w : MagicEditor) : list cbid :=
  default [] (event_handlers w !! event_type).

Definition on_event (event_type : string) (callback : cbid) (self : MagicEditor)
  : MagicEditor * result unit :=
  (set_event_handlers
     (<[event_type := handlers_of event_type self ++ [callback]]>
        (event_handlers self)) self,
   Ok tt).

(** ** The event bus *)

(** What a registered callback does when it is called with [args]: it runs
    to completion in the application state and returns or raises an exception
    deriving from [Exception]. *)
Variable run_cb : cbid -> list value -> MagicEditor -> MagicEditor * result unit.

(** [try: body  except Exception as exc: handler], for a body that may raise
    any exception: one outside [Exception] is not caught. *)
Definition try_Exception {A : Type} (body : MagicEditor -> MagicEditor * ending A)
    (handler : exn -> MagicEditor -> MagicEditor * ending A)
    (w : MagicEditor) : MagicEditor * ending A :=
  match body w with
  | (w', Returns a) => (w', Returns a)
  | (w', Raises exc) => handler exc w'
  | (w', Exits exc) => (w', Exits exc)
  end.

(** The same for a body that raises within [Exception] only, as the callbacks
    of this section do; the module [Escaping] below has the loops of this
    section and the next for callbacks that may raise outside it. *)
Definition try_except {A : Type} (body : MagicEditor -> MagicEditor * result A)
    (handler : exn -> MagicEditor -> MagicEditor * result A)
    (w : MagicEditor) : MagicEditor * result A :=
  match body w with
  | (w', Ok a) => (w', Ok a)
  | (w', Raise exc) => handler exc w'
  end.

(** The body of the loop of [trigger_event]. *)
Definition call_handler (cb : cbid) (args : list value)
  : MagicEditor -> MagicEditor * result unit :=
  try_except (run_cb cb args)
    (fun exc w => (print ("Error in event handler: " +:+ str exc) w, Ok tt)).

(** The state one round of that loop leaves. *)
Definition handled (cb : cbid) (args : list value) (w : MagicEditor) : MagicEditor :=
  fst (call_handler cb args w).

(** [for cb in self.event_handlers.get(event_type, [])]: a Python [for] over
    a list reads the list by index as it goes, so callbacks appended while the
    loop runs are reached too; the loop may then not end, hence the fuel. *)
Fixpoint trigger_from (fuel : nat) (event_type : string) (args : list value)
    (i : nat) (self : MagicEditor) : option (MagicEditor * result unit) :=
  match fuel with
  | O => None
  | S fuel =>
      match handlers_of event_type self !! i with
      | None => Some (self, Ok tt)
      | Some cb =>
          match call_handler cb args self with
          | (self, Ok _) => trigger_from fuel event_type args (S i) self
          | (self, Raise exc) => Some (self, Raise exc)
          end
      end
  end.

Definition trigger_event (fuel : nat) (event_type : string) (args : list value)
    (self : MagicEditor) : option (MagicEditor * result unit) :=
  trigger_from fuel event_type args 0 self.

(** The calls [trigger_event] makes, in the order it makes them: each callback
    with the state it is called in. *)
Fixpoint calls_from (fuel : nat) (event_type : string) (args : list value)
    (i : nat) (self : MagicEditor) : list (cbid * MagicEditor) :=
  match fuel with
  | O => []
  | S fuel =>
      match handlers_of event_type self !! i with
      | None => []
      | Some cb =>
          (cb, self) ::
          match call_handler cb args self with
          | (self, Ok _) => calls_from fuel event_type args (S i) self
          | (_, Raise _) => []
          end
      end
  end.

Definition calls (fuel : nat) (event_type : string) (args : list value)
    (self : MagicEditor) : list (cbid * MagicEditor) :=
  calls_from fuel event_type args 0 self.

(** ** The physics task *)

(** Lines 169 and 171: the node moves by the velocity, then the velocity
    vector is scaled in place. *)
Definition move_orb (dt : F) (orb : nat) (self : MagicEditor) : MagicEditor :=
  match orbs self !! orb with
  | Some o =>
      let nd := node (orb_entity o) in
      let v := velocity (orb_entity o) in
      let self :=
        setPos nd (vadd (getPos nd self) (vscale (vget self v) dt)) self in
      vput v (vscale (vget self v) damping) self
  | None => self
  end.

(** [orb.velocity = Vec3(0, 0, 0)]: the orb gets a new vector. *)
Definition stop_orb (orb : nat) (self : MagicEditor) : MagicEditor :=
  let '(z, self) := valloc vzero self in
  set_orbs (alter (set_orb_velocity z) orb (orbs self)) self.

(** Lines 173 to 177. *)
Definition collide_orb (fuel : nat) (orb : nat) (self : MagicEditor)
  : option (MagicEditor * result unit) :=
  match orb_node orb self with
  | Some nd =>
      if fle (getZ nd self) (lit 0) then
        let self := setZ nd (lit 0) self in
        match trigger_event fuel "impact"
                [VEntity (EOrb orb); VEntity EGround] self with
        | Some (self, Ok _) => Some (stop_orb orb self, Ok tt)
        | Some (self, Raise exc) => Some (self, Raise exc)
        | None => None
        end
      else Some (self, Ok tt)
  | None => Some (self, Ok tt)
  end.

(** The body of the loop of [update_physics]. *)
Definition step_orb (fuel : nat) (dt : F) (orb : nat) (self : MagicEditor)
  : option (MagicEditor * result unit) :=
  collide_orb fuel orb (move_orb dt orb self).

(** [for orb in self.orbs]: by index over the list as it is at each step, as
    in [trigger_from]; an impact callback may create orbs. *)
Fixpoint physics_from (fuel : nat) (dt : F) (i : nat) (self : MagicEditor)
  : option (MagicEditor * result unit) :=
  match fuel with
  | O => None
  | S fuel =>
      match orbs self !! i with
      | None => Some (self, Ok tt)
      | Some _ =>
          match step_orb fuel dt i self with
          | Some (self, Ok _) => physics_from fuel dt (S i) self
          | Some (self, Raise exc) => Some (self, Raise exc)
          | None => None
          end
      end
  end.

(** [dt] is what [globalClock.getDt()] returns; the list [to_remove] of the
    source is never used. *)
Definition update_physics (fuel : nat) (dt : F) (self : MagicEditor)
  : option (MagicEditor * result unit) :=
  physics_from fuel dt 0 self.

(** What reading [orb.velocity] gives in a state. *)
Definition orb_velocity (orb : nat) (w : MagicEditor) : option Vec3 :=
  (fun o => vget w (velocity (orb_entity o))) <$> orbs w !! orb.

(** ** The user interface *)

Definition update_stats (self : MagicEditor) : MagicEditor :=
  mkEditor (nodes self) (vecs self) (ground self) (player self) (orbs self)
           (event_handlers self) (stdout self) (msg_var self)
           ("Mana: " +:+ pretty (mana (player self)))
           ("Fire: " +:+ pretty (fire (player self)))
           ("Water: " +:+ pretty (water (player self))).

(** The state when [MagicEditor.__init__] returns: [setup_scene] has made
    the ground (node 0, vector 0) and then the player (node 1, vectors 1 to 3
    for the player, its hands and its feet); no handler and no orb exist. *)
Definition initial : MagicEditor :=
  update_stats
    (mkEditor
       [mkNode vzero (lit 1) (Some (lit (1 # 2), lit (1 # 2), lit (1 # 2), lit 1));
        mkNode (mkVec3 (lit 0) (lit 0) (lit (1 # 2))) (lit (1 # 2)) None]
       [vzero; vzero; vzero; vzero]
       (mkEntity "ground" 0 0)
       (mkPlayer (mkEntity "player" 1 1) 100 50 50
                 (mkEntity "hands" 1 2) (mkEntity "feet" 1 3))
       [] ∅ [] "" "" "" "").

(** ** The ledger invariant *)

Definition nonneg (w : MagicEditor) : Prop :=
  (0 <= mana (player w))%Z /\ (0 <= fire (player w))%Z /\ (0 <= water (player w))%Z.

(** ** Spell code

    A spell is Python text.  Its run is a sequence of steps on the host:
    evaluating a name that the spell has not bound itself, an [import],
    reading an attribute of a host object, calling one of the five API
    methods with arguments of the annotated types, any other operation on
    the objects the spell has got hold of ([Host]: a store to an attribute
    such as [player.mana = 0], a call of a method reached through attribute
    access, a call of an API method with an argument of another type), and
    [try] statements; what the spell computes in between is the continuation.
    Of the attributes only those below are described; the scene-graph node of
    an entity is left to Panda3D.  A spell that loops for ever has no such
    description; the program has no guard against it. *)

Inductive attr :=
| AName | AVelocity | AMana | AFire | AWater | AHands | AFeet
| AElement
| AClass      (* __class__ *)
| ASelf.      (* __self__ *)

(** A call of an API method with arguments of the annotated types: a force
    is a sequence of three numbers or a [Vec3], an orb is an orb.  With any
    other argument the call is a [Host] step: [create_orb(5)], say, takes the
    mana at line 188 and raises at line 196, in [_parse_vec]. *)
Inductive call :=
| CCreateOrb (force : force_value F)
| CUseFire (orb : nat)
| CUseWater (orb : nat)
| CApplyForceTo (e : EntRef) (force : force_value F)
| COnEvent (event_type : string) (callback : cbid).

(** In [Try body catches handler rest] the clauses of the [try] statement are
    given by [catches], which tells whether one of them matches the exception
    (the boolean says whether its class is outside [Exception]; a bare
    [except:] matches every exception), and by [handler], the clause that
    then runs. *)
Inductive prog :=
| Done
| Throw (exc : exn)      (* raise, of an exception deriving from Exception *)
| Leave (exc : exn)      (* raise, of an exception outside Exception *)
| LoadName (x : string) (k : value -> prog)
| Import (module : string) (k : value -> prog)
| GetAttr (v : value) (a : attr) (k : value -> prog)
| CallApi (c : call) (k : value -> prog)
| Host (f : MagicEditor -> MagicEditor * ending value) (k : value -> prog)
| Try (body : prog) (catches : bool -> exn -> bool)
      (handler : bool -> exn -> prog) (rest : prog).


(** The editor text: it does not compile, or it compiles to a run. *)
Inductive script :=
| Unparsable (msg : string)
| Parsed (body : prog).

(** *** The namespace of [cast_spell] *)

Definition allowed_builtins : gmap string value :=
  <["range" := VBuiltin BRange]>
    (<["min" := VBuiltin BMin]> (<["max" := VBuiltin BMax]> ∅)).

Definition safe_globals : gmap string value :=
  <["on_event" := VMethod AOnEvent]>
    (<["apply_force_to" := VMethod AApplyForceTo]>
       (<["use_water" := VMethod AUseWater]>
          (<["use_fire" := VMethod AUseFire]>
             (<["create_orb" := VMethod ACreateOrb]>
                (<["player" := VEntity EPlayer]>
                   (<["__builtins__" := VBuiltinsDict]> ∅)))))).

(** Name resolution in [exec(code, safe_globals, {})]: the globals, then the
    builtins the globals give under [__builtins__]. *)
Definition lookup_name (x : string) : option value :=
  match safe_globals !! x with
  | Some v => Some v
  | None => allowed_builtins !! x
  end.


(** The words that are no names at run time: the compiler puts a constant
    in their place ([__debug__] is true unless Python runs with [-O]). *)
Definition constant (x : string) : option value :=
  if String.eqb x "None" then Some VNone
  else if String.eqb x "True" then Some (VBool true)
  else if String.eqb x "False" then Some (VBool false)
  else if String.eqb x "__debug__" then Some (VBool true)
  else None.

(** Evaluating [x] in spell code that has not bound it. *)
Definition load_name (x : string) : result value :=
  match constant x with
  | Some v => Ok v
  | None =>
      match lookup_name x with
      | Some v => Ok v
      | None => Raise (NameError ("name '" +:+ x +:+ "' is not defined"))
      end
  end.

(** *** Attributes of host objects *)

Definition type_of (v : value) : pytype :=
  match v with
  | VNone => TNoneType
  | VBool _ => TBool
  | VInt _ => TInt
  | VStr _ => TStr
  | VVec3 _ => TVec3
  | VEntity EPlayer => TPlayer
  | VEntity (EOrb _) => TOrb
  | VEntity _ => TEntity
  | VMethod _ => TMethod
  | VBuiltin BRange => TType
  | VBuiltin _ => TBuiltinFunction
  | VBuiltinsDict => TDict
  | VBuiltinsModule => TModule
  | VApp => TMagicEditor
  | VType _ => TType
  | VDescriptor TMethod => TMemberDescriptor
  | VDescriptor _ => TGetSetDescriptor
  end.

Definition type_name (t : pytype) : string :=
  match t with
  | TNoneType => "NoneType" | TBool => "bool" | TInt => "int" | TStr => "str"
  | TVec3 => "panda3d.core.LVector3f"
  | TEntity => "Entity" | TPlayer => "Player" | TOrb => "Orb"
  | TMethod => "method" | TBuiltinFunction => "builtin_function_or_method"
  | TDict => "dict" | TModule => "module" | TMagicEditor => "MagicEditor"
  | TType => "type"
  | TMemberDescriptor => "member_descriptor"
  | TGetSetDescriptor => "getset_descriptor"
  end.

Definition attr_name (a : attr) : string :=
  match a with
  | AName => "name" | AVelocity => "velocity"
  | AMana => "mana" | AFire => "fire" | AWater => "water"
  | AHands => "hands" | AFeet => "feet" | AElement => "element"
  | AClass => "__class__" | ASelf => "__self__"
  end.

(** A bound method hands the attributes it has not itself on to its
    function, so the message names the function. *)
Definition no_attribute (v : value) (a : attr) : exn :=
  AttributeError
    (match v with
     | VType t => "type object '" +:+ type_name t +:+ "'"
     | VBuiltin BRange => "type object 'range'"
     | VBuiltinsModule => "module 'builtins'"
     | VMethod _ => "'function' object"
     | _ => "'" +:+ type_name (type_of v) +:+ "' object"
     end +:+ " has no attribute '" +:+ attr_name a +:+ "'").

(** The attributes the classes of the program define, and the two that Python
    gives: [__class__] on every object, [__self__] on bound methods and
    builtin functions, and on their two classes, where it is the descriptor. *)
Definition getattr (v : value) (a : attr) (w : MagicEditor) : result value :=
  match a, v with
  | AClass, _ => Ok (VType (type_of v))
  | ASelf, VMethod _ => Ok VApp
  | ASelf, VBuiltin BMin | ASelf, VBuiltin BMax => Ok VBuiltinsModule
  | ASelf, VType TMethod => Ok (VDescriptor TMethod)
  | ASelf, VType TBuiltinFunction => Ok (VDescriptor TBuiltinFunction)
  | AName, VEntity e =>
      match entity e w with
      | Some ent => Ok (VStr (name ent))
      | None => Raise (no_attribute v a)
      end
  | AVelocity, VEntity e =>
      match entity e w with
      | Some ent => Ok (VVec3 (velocity ent))
      | None => Raise (no_attribute v a)
      end
  | AMana, VEntity EPlayer => Ok (VInt (mana (player w)))
  | AFire, VEntity EPlayer => Ok (VInt (fire (player w)))
  | AWater, VEntity EPlayer => Ok (VInt (water (player w)))
  | AHands, VEntity EPlayer => Ok (VEntity EHands)
  | AFeet, VEntity EPlayer => Ok (VEntity EFeet)
  | AElement, VEntity (EOrb i) =>
      match orbs w !! i with
      | Some o =>
          Ok (match element o with
              | Some el => VStr (element_name el)
              | None => VNone
              end)
      | None => Raise (no_attribute v a)
      end
  | _, _ => Raise (no_attribute v a)
  end.

(** *** Running a spell *)

Definition call_api (c : call) (self : MagicEditor) : MagicEditor * result value :=
  match c with
  | CCreateOrb force =>
      match create_orb force self with
      | (self, Ok orb) => (self, Ok (VEntity (EOrb orb)))
      | (self, Raise exc) => (self, Raise exc)
      end
  | CUseFire orb =>
      match use_fire orb self with
      | (self, Ok _) => (self, Ok VNone)
      | (self, Raise exc) => (self, Raise exc)
      end
  | CUseWater orb =>
      match use_water orb self with
      | (self, Ok _) => (self, Ok VNone)
      | (self, Raise exc) => (self, Raise exc)
      end
  | CApplyForceTo e force =>
      match apply_force_to e force self with
      | (self, Ok _) => (self, Ok VNone)
      | (self, Raise exc) => (self, Raise exc)
      end
  | COnEvent event_type callback =>
      match on_event event_type callback self with
      | (self, Ok _) => (self, Ok VNone)
      | (self, Raise exc) => (self, Raise exc)
      end
  end.

(** A step that raises ends the run, unless it is in the body of a [Try]
    with a clause that matches: then the clause runs, and after it the rest.
    An exception raised in a clause is not caught by that [Try]. *)
Fixpoint run (p : prog) (w : MagicEditor) : MagicEditor * ending unit :=
  match p with
  | Done => (w, Returns tt)
  | Throw exc => (w, Raises exc)
  | Leave exc => (w, Exits exc)
  | LoadName x k =>
      match load_name x with
      | Ok v => run (k v) w
      | Raise exc => (w, Raises exc)
      end
  | Import _ k =>
      (* the import statement calls the builtin __import__ *)
      match allowed_builtins !! "__import__" with
      | Some v => run (k v) w
      | None => (w, Raises (ImportError "__import__ not found"))
      end
  | GetAttr v a k =>
      match getattr v a w with
      | Ok x => run (k x) w
      | Raise exc => (w, Raises exc)
      end
  | CallApi c k =>
      match call_api c w with
      | (w, Ok v) => run (k v) w
      | (w, Raise exc) => (w, Raises exc)
      end
  | Host f k =>
      match f w with
      | (w, Returns v) => run (k v) w
      | (w, Raises exc) => (w, Raises exc)
      | (w, Exits exc) => (w, Exits exc)
      end
  | Try body catches handler rest =>
      match run body w with
      | (w, Returns _) => run rest w
      | (w, Raises exc) =>
          if catches false exc then
            match run (handler false exc) w with
            | (w, Returns _) => run rest w
            | (w, Raises exc') => (w, Raises exc')
            | (w, Exits exc') => (w, Exits exc')
            end
          else (w, Raises exc)
      | (w, Exits exc) =>
          if catches true exc then
            match run (handler true exc) w with
            | (w, Returns _) => run rest w
            | (w, Raises exc') => (w, Raises exc')
            | (w, Exits exc') => (w, Exits exc')
            end
          else (w, Exits exc)
      end
  end.

(** [exec(code, safe_globals, {})] *)
Definition exec (code : script) (w : MagicEditor) : MagicEditor * ending unit :=
  match code with
  | Unparsable msg => (w, Raises (SyntaxError msg))
  | Parsed body => run body w
  end.

(** [code] is the text of the editor widget.  An exception outside
    [Exception] passes the [except] clause: no message is set and
    [update_stats] is not reached. *)
Definition cast_spell (code : script) (self : MagicEditor)
  : MagicEditor * ending unit :=
  let '(self, r) :=
    try_Exception
      (fun w =>
         match exec code w with
         | (w, Returns _) => (set_msg_var "Spell cast successfully" w, Returns tt)
         | (w, Raises exc) => (w, Raises exc)
         | (w, Exits exc) => (w, Exits exc)
         end)
      (fun exc w => (set_msg_var ("Error: " +:+ str exc) w, Returns tt))
      self in
  match r with
  | Returns _ => (update_stats self, Returns tt)
  | Raises exc => (self, Raises exc)
  | Exits exc => (self, Exits exc)
  end.

(** ** Orbs and their stores *)

(** The nodes and the velocity vectors of the orbs, in the order of
    [self.orbs]. *)
Definition orb_nodes (w : MagicEditor) : list nat :=
  (fun o => node (orb_entity o)) <$> orbs w.
Definition orb_vectors (w : MagicEditor) : list nat :=
  (fun o => velocity (orb_entity o)) <$> orbs w.

(** Every orb has a node and a vector of its own, and both exist. *)
Definition separate (w : MagicEditor) : Prop :=
  NoDup (orb_nodes w) /\ NoDup (orb_vectors w)
  /\ forall i o, orbs w !! i = Some o ->
       node (orb_entity o) < length (nodes w)
       /\ velocity (orb_entity o) < length (vecs w).

(** The spell [orb = create_orb(force); use_fire(orb)]; the text the editor
    opens with is this spell with force (10, 0, 15).  [create_orb] returns an
    orb, the other case of the match does not arise. *)
Definition orb_then_fire (force : force_value F) : prog :=
  LoadName "create_orb" (fun _ =>
  CallApi (CCreateOrb force) (fun orb =>
  LoadName "use_fire" (fun _ =>
  match orb with
  | VEntity (EOrb i) => CallApi (CUseFire i) (fun _ => Done)
  | _ => Done
  end))).

Definition example_spell : script :=
  Parsed (orb_then_fire (FSeq (lit 10) (lit 0) (lit 15))).

End Editor.

Arguments Vec3 F : clear implicits.
Arguments NodePath F : clear implicits.
Arguments MagicEditor F : clear implicits.
Arguments call F : clear implicits.
Arguments prog F : clear implicits.
Arguments script F : clear implicits.

(** ** The event bus and the physics task, for any callbacks

    The loops of [trigger_event] and [update_physics] as above, for callbacks
    that may also raise outside [Exception]: the clause at line 233 does not
    catch such an exception, which ends the dispatch and the tick. *)

Module Escaping.
Section Bus.
Context {F : Type} `{Scalar F}.

Variable run_cb :
  cbid -> list value -> MagicEditor F -> MagicEditor F * ending unit.

(** The body of the loop of [trigger_event]. *)
Definition call_handler (cb : cbid) (args : list value)
  : MagicEditor F -> MagicEditor F * ending unit :=
  try_Exception (run_cb cb args)
    (fun exc w => (print ("Error in event handler: " +:+ str exc) w, Returns tt)).

Fixpoint trigger_from (fuel : nat) (event_type : string) (args : list value)
    (i : nat) (self : MagicEditor F) : option (MagicEditor F * ending unit) :=
  match fuel with
  | O => None
  | S fuel =>
      match handlers_of event_type self !! i with
      | None => Some (self, Returns tt)
      | Some cb =>
          match call_handler cb args self with
          | (self, Returns _) => trigger_from fuel event_type args (S i) self
          | (self, Raises exc) => Some (self, Raises exc)
          | (self, Exits exc) => Some (self, Exits exc)
          end
      end
  end.

Definition trigger_event (fuel : nat) (event_type : string) (args : list value)
    (self : MagicEditor F) : option (MagicEditor F * ending unit) :=
  trigger_from fuel event_type args 0 self.

(** Lines 173 to 177. *)
Definition collide_orb (fuel : nat) (orb : nat) (self : MagicEditor F)
  : option (MagicEditor F * ending unit) :=
  match orb_node orb self with
  | Some nd =>
      if fle (getZ nd self) (lit 0) then
        let self := setZ nd (lit 0) self in
        match trigger_event fuel "impact"
                [VEntity (EOrb orb); VEntity EGround] self with
        | Some (self, Returns _) => Some (stop_orb orb self, Returns tt)
        | Some (self, Raises exc) => Some (self, Raises exc)
        | Some (self, Exits exc) => Some (self, Exits exc)
        | None => None
        end
      else Some (self, Returns tt)
  | None => Some (self, Returns tt)
  end.

Definition step_orb (fuel : nat) (dt : F) (orb : nat) (self : MagicEditor F)
  : option (MagicEditor F * ending unit) :=
  collide_orb fuel orb (move_orb dt orb self).

Fixpoint physics_from (fuel : nat) (dt : F) (i : nat) (self : MagicEditor F)
  : option (MagicEditor F * ending unit) :=
  match fuel with
  | O => None
  | S fuel =>
      match orbs self !! i with
      | None => Some (self, Returns tt)
      | Some _ =>
          match step_orb fuel dt i self with
          | Some (self, Returns _) => physics_from fuel dt (S i) self
          | Some (self, Raises exc) => Some (self, Raises exc)
          | Some (self, Exits exc) => Some (self, Exits exc)
          | None => None
          end
      end
  end.

Definition update_physics (fuel : nat) (dt : F) (self : MagicEditor F)
  : option (MagicEditor F * ending unit) :=
  physics_from fuel dt 0 self.

(** The states the core operations lead to from the initial one. *)
Inductive reachable : MagicEditor F -> Prop :=
| reach_initial : reachable initial
| reach_create_orb force w :
    reachable w -> reachable (fst (create_orb force w))
| reach_use_fire orb w :
    reachable w -> reachable (fst (use_fire orb w))
| reach_use_water orb w :
    reachable w -> reachable (fst (use_water orb w))
| reach_apply_force_to e force w :
    reachable w -> reachable (fst (apply_force_to e force w))
| reach_on_event event_type callback w :
    reachable w -> reachable (fst (on_event event_type callback w))
| reach_update_physics fuel dt w w' r :
    reachable w -> update_physics fuel dt w = Some (w', r) -> reachable w'
| reach_trigger_event fuel event_type args w w' r :
    reachable w -> trigger_event fuel event_type args w = Some (w', r) ->
    reachable w'.

End Bus.
End Escaping.

(** A callback of the first kind, taken as one of any kind. *)
Definition any_ending {F : Type}
    (run_cb : cbid -> list value -> MagicEditor F -> MagicEditor F * result unit)
    (cb : cbid) (args : list value) (w : MagicEditor F)
  : MagicEditor F * ending unit :=
  (fst (run_cb cb args w), ended (snd (run_cb cb args w))).

(** ** Sample callbacks and states, in exact rational arithmetic *)

(** Callback 0 counts its calls in the player's velocity, callback 1 fails,
    every other callback returns at once. *)
Definition demo_cb (cb : cbid) (args : list value) (w : MagicEditor Q)
  : MagicEditor Q * result unit :=
  match cb with
  | 0 => apply_force_to (H := Q_scalar) EPlayer (FSeq 1%Q 0%Q 0%Q) w
  | 1 => (w, Raise (RuntimeError "boom"))
  | _ => (w, Ok tt)
  end.

Definition start : MagicEditor Q := initial (H := Q_scalar).

(** The state after ten calls of [create_orb] and ten calls of [use_water]:
    no mana and no water are left. *)
Definition drained : MagicEditor Q :=
  Nat.iter 10 (fun w => fst (use_water (H := Q_scalar) 0 w))
    (Nat.iter 10
       (fun w => fst (create_orb (H := Q_scalar) (FSeq 0%Q 0%Q 1%Q) w)) start).

(** The state after nine calls of [create_orb]: ten mana are left. *)
Definition last_orb : MagicEditor Q :=
  Nat.iter 9 (fun w => fst (create_orb (H := Q_scalar) (FSeq 0%Q 0%Q 1%Q) w)) start.

(** An orb created with force (0, 0, -5): it is at (0, 2, 1.5). *)
Definition falling : MagicEditor Q :=
  fst (create_orb (H := Q_scalar) (FSeq 0%Q 0%Q (-5 # 1)%Q) start).

(** An orb created with force (0, 0, -1). *)
Definition floating : MagicEditor Q :=
  fst (create_orb (H := Q_scalar) (FSeq 0%Q 0%Q (-1 # 1)%Q) start).

(** The falling orb, with the counting callback registered for impacts. *)
Definition watched : MagicEditor Q := fst (on_event "impact" 0 falling).


(** What [trigger_event] passes for an impact of orb 0. *)
Definition impact_args : list value := [VEntity (EOrb 0); VEntity EGround].


(** Two orbs that do not reach the ground in a tick of one second. *)
Definition two_floating : MagicEditor Q :=
  fst (create_orb (H := Q_scalar) (FSeq 1%Q 0%Q 0%Q) floating).

(** Two orbs, the second created with the velocity vector of the first. *)
Definition twins : MagicEditor Q :=
  fst (create_orb (H := Q_scalar) (FVec3 5) floating).

(** The falling orb, with callback 1 registered under another event name. *)
Definition bystander : MagicEditor Q := fst (on_event "splash" 1 falling).



(** Callbacks of any kind: callback 3 raises [SystemExit("bye")], the others
    are those of [demo_cb]. *)
Definition leaving (cb : cbid) (args : list value) (w : MagicEditor Q)
  : MagicEditor Q * ending unit :=
  match cb with
  | 3 => (w, Exits (Exn "SystemExit" "bye"))
  | _ => any_ending demo_cb cb args w
  end.




(** Callbacks of which number 0 is [player.mana -= 1000]; the others return
    at once. *)
Definition thief (cb : cbid) (args : list value) (w : MagicEditor Q)
  : MagicEditor Q * ending unit :=
  match cb with
  | 0 => (set_player (set_mana (mana (player w) - 1000)%Z (player w)) w,
          Returns tt)
  | _ => (w, Returns tt)
  end.





(** * Properties *)

Section Facts.
Context {F : Type} `{Scalar F}.
Variable run_cb : cbid -> list value -> MagicEditor F -> MagicEditor F * result unit.

(** ** The object stores *)

Lemma default_app_same {A : Type} (d : A) (l : list A) (r : nat) :
  default d ((l ++ [d]) !! r) = default d (l !! r).
Proof.
  destruct (decide (r < length l)) as [Hlt|Hge].
  - by rewrite lookup_app_l.
  - rewrite lookup_app_r by lia.
    rewrite (lookup_ge_None_2 l r) by lia.
    destruct (r - length l) as [|n]; simpl; [done|].
    by destruct n.
Qed.

Lemma lookup_app_length {A : Type} (l : list A) (x : A) :
  (l ++ [x]) !! length l = Some x.
Proof. by rewrite lookup_app_r, Nat.sub_diag by lia. Qed.

Lemma pos_alter_default (g : NodePath F -> NodePath F) n
    (l : list (NodePath F)) r :
  (forall x, pos (g x) = pos x) ->
  pos (default fresh_node (alter g n l !! r)) = pos (default fresh_node (l !! r)).
Proof.
  intros Hg. rewrite list_lookup_alter. case_decide; [|done].
  subst. destruct (l !! r); simpl; [apply Hg | done].
Qed.

(** The entities of the initial state are what the constructors make. *)
Lemma initial_from_constructors :
  let '(g, w0) := new_Entity "ground" 0 (set_vecs [] (initial (F := F))) in
  let '(p, w1) := new_Player 1 w0 in
  g = ground (initial (F := F)) /\ p = player (initial (F := F))
  /\ vecs w1 = vecs (initial (F := F)).
Proof. done. Qed.

(** ** The resource ledger *)

Lemma create_orb_low force (w : MagicEditor F) :
  (mana (player w) < 10)%Z ->
  create_orb force w = (w, Raise (RuntimeError "Not enough mana to create orb")).
Proof.
  intros Hlow. unfold create_orb.
  destruct (Z.ltb_spec (mana (player w)) 10); [done | lia].
Qed.

Lemma create_orb_ok force (w : MagicEditor F) :
  (10 <= mana (player w))%Z ->
  exists w' o,
    create_orb force w = (w', Ok (length (orbs w)))
    /\ mana (player w') = (mana (player w) - 10)%Z
    /\ fire (player w') = fire (player w)
    /\ water (player w') = water (player w)
    /\ orbs w' = orbs w ++ [o]
    /\ getPos (node (orb_entity o)) w'
       = vadd (getPos (node (player_entity (player w))) w) orb_offset
    /\ vget w' (velocity (orb_entity o)) = force_vec force w
    /\ element o = None
    /\ event_handlers w' = event_handlers w.
Proof.
  intros Hok. unfold create_orb.
  destruct (Z.ltb_spec (mana (player w)) 10); [lia|].
  destruct force as [x y z|r]; cbn;
    (eexists _, _; split; [reflexivity|]);
    unfold getPos, nget, vget, setPos, setScale, set_orb_velocity, set_velocity;
    cbn; repeat split; cbn.
  - rewrite list_lookup_alter_eq, list_lookup_alter_eq, lookup_app_length. cbn.
    rewrite pos_alter_default by done. by rewrite default_app_same.
  - by rewrite lookup_app_length.
  - rewrite list_lookup_alter_eq, list_lookup_alter_eq, lookup_app_length. cbn.
    rewrite pos_alter_default by done. by rewrite default_app_same.
  - apply default_app_same.
Qed.

Lemma use_fire_low orb (w : MagicEditor F) :
  (fire (player w) < 5)%Z ->
  use_fire orb w = (w, Raise (RuntimeError "Not enough fire energy")).
Proof.
  intros Hlow. unfold use_fire.
  destruct (Z.ltb_spec (fire (player w)) 5); [done | lia].
Qed.

Lemma use_water_low orb (w : MagicEditor F) :
  (water (player w) < 5)%Z ->
  use_water orb w = (w, Raise (RuntimeError "Not enough water energy")).
Proof.
  intros Hlow. unfold use_water.
  destruct (Z.ltb_spec (water (player w)) 5); [done | lia].
Qed.

(** Colouring a node leaves everything but the node store as it is. *)
Lemma color_of_frame orb c (w : MagicEditor F) :
  player (color_of orb c w) = player w
  /\ orbs (color_of orb c w) = orbs w
  /\ vecs (color_of orb c w) = vecs w
  /\ event_handlers (color_of orb c w) = event_handlers w.
Proof. unfold color_of. by destruct (orb_node orb w). Qed.

Lemma use_fire_ok orb (w : MagicEditor F) :
  (5 <= fire (player w))%Z ->
  exists w',
    use_fire orb w = (w', Ok tt)
    /\ fire (player w') = (fire (player w) - 5)%Z
    /\ mana (player w') = mana (player w)
    /\ water (player w') = water (player w)
    /\ orbs w' = alter (set_element (Some Fire)) orb (orbs w)
    /\ vecs w' = vecs w
    /\ event_handlers w' = event_handlers w.
Proof.
  intros Hok. unfold use_fire.
  destruct (Z.ltb_spec (fire (player w)) 5); [lia|].
  eexists. split; [reflexivity|].
  match goal with |- context [color_of ?o ?c ?x] =>
    destruct (color_of_frame o c x) as (-> & -> & -> & ->) end.
  done.
Qed.

Lemma use_water_ok orb (w : MagicEditor F) :
  (5 <= water (player w))%Z ->
  exists w',
    use_water orb w = (w', Ok tt)
    /\ water (player w') = (water (player w) - 5)%Z
    /\ mana (player w') = mana (player w)
    /\ fire (player w') = fire (player w)
    /\ orbs w' = alter (set_element (Some Water)) orb (orbs w)
    /\ vecs w' = vecs w
    /\ event_handlers w' = event_handlers w.
Proof.
  intros Hok. unfold use_water.
  destruct (Z.ltb_spec (water (player w)) 5); [lia|].
  eexists. split; [reflexivity|].
  match goal with |- context [color_of ?o ?c ?x] =>
    destruct (color_of_frame o c x) as (-> & -> & -> & ->) end.
  done.
Qed.

(** C1: each of the three spending operations, [create_orb] (10 mana),
    [use_fire] (5 fire) and [use_water] (5 water), raises its
    not-enough error and returns the state as it was when the balance is
    below the cost; otherwise it succeeds and takes exactly the cost from its
    own balance, the other two balances staying as they were. *)
Theorem spend_contract (w : MagicEditor F) (force : force_value F) (orb : nat) :
  ((mana (player w) < 10)%Z ->
     create_orb force w
     = (w, Raise (RuntimeError "Not enough mana to create orb")))
  /\ ((10 <= mana (player w))%Z ->
      exists w' ref,
        create_orb force w = (w', Ok ref)
        /\ mana (player w') = (mana (player w) - 10)%Z
        /\ fire (player w') = fire (player w)
        /\ water (player w') = water (player w))
  /\ ((fire (player w) < 5)%Z ->
      use_fire orb w = (w, Raise (RuntimeError "Not enough fire energy")))
  /\ ((5 <= fire (player w))%Z ->
      exists w',
        use_fire orb w = (w', Ok tt)
        /\ fire (player w') = (fire (player w) - 5)%Z
        /\ mana (player w') = mana (player w)
        /\ water (player w') = water (player w))
  /\ ((water (player w) < 5)%Z ->
      use_water orb w = (w, Raise (RuntimeError "Not enough water energy")))
  /\ ((5 <= water (player w))%Z ->
      exists w',
        use_water orb w = (w', Ok tt)
        /\ water (player w') = (water (player w) - 5)%Z
        /\ mana (player w') = mana (player w)
        /\ fire (player w') = fire (player w)).
Proof.
  repeat split.
  - apply create_orb_low.
  - intros Hok. destruct (create_orb_ok force w Hok) as (w' & o & ? & ? & ? & ? & _).
    by exists w', (length (orbs w)).
  - apply use_fire_low.
  - intros Hok. destruct (use_fire_ok orb w Hok) as (w' & ? & ? & ? & ? & _).
    by exists w'.
  - apply use_water_low.
  - intros Hok. destruct (use_water_ok orb w Hok) as (w' & ? & ? & ? & ? & _).
    by exists w'.
Qed.

(** C2: with at least 10 mana, [create_orb] takes exactly 10 mana, appends a
    new orb to [self.orbs] (the list the physics task walks), placed at the
    player's position plus (0, 2, 1) and moving with the given force, and
    returns it; from exactly 10 mana this leaves 0, and every further call
    raises the not-enough-mana error without changing the state. *)
Theorem create_orb_spec (force : force_value F) (w : MagicEditor F) :
  (10 <= mana (player w))%Z ->
  exists w' o,
    create_orb force w = (w', Ok (length (orbs w)))
    /\ mana (player w') = (mana (player w) - 10)%Z
    /\ orbs w' = orbs w ++ [o]
    /\ orbs w' !! length (orbs w) = Some o
    /\ getPos (node (orb_entity o)) w'
       = vadd (getPos (node (player_entity (player w))) w) orb_offset
    /\ vget w' (velocity (orb_entity o)) = force_vec force w
    /\ (mana (player w) = 10%Z ->
        mana (player w') = 0%Z
        /\ forall force',
             create_orb force' w'
             = (w', Raise (RuntimeError "Not enough mana to create orb"))).
Proof.
  intros Hok.
  destruct (create_orb_ok force w Hok)
    as (w' & o & Hrun & Hmana & _ & _ & Horbs & Hpos & Hvel & _).
  exists w', o. repeat split; try done.
  - rewrite Horbs. apply lookup_app_length.
  - lia.
  - intros force'. apply create_orb_low. lia.
Qed.

(** C3: with at least 5 fire, [use_fire] on an orb takes exactly 5 fire and
    tags the orb with fire; with at least 5 water, [use_water] on an orb takes
    exactly 5 water, leaves the fire balance alone and tags the orb with
    water whatever its tag was, so after [use_fire] then [use_water] the tag
    is water, 5 fire and 5 water are gone. *)
Theorem use_fire_then_use_water (orb : nat) (o : Orb) (w : MagicEditor F) :
  orbs w !! orb = Some o ->
  (5 <= fire (player w))%Z ->
  exists w1,
    use_fire orb w = (w1, Ok tt)
    /\ element <$> orbs w1 !! orb = Some (Some Fire)
    /\ fire (player w1) = (fire (player w) - 5)%Z
    /\ water (player w1) = water (player w)
    /\ ((5 <= water (player w))%Z ->
        exists w2,
          use_water orb w1 = (w2, Ok tt)
          /\ element <$> orbs w2 !! orb = Some (Some Water)
          /\ water (player w2) = (water (player w) - 5)%Z
          /\ fire (player w2) = (fire (player w) - 5)%Z).
Proof.
  intros Horb Hfire.
  destruct (use_fire_ok orb w Hfire) as (w1 & Hrun & Hf & _ & Hw & Horbs & _).
  exists w1. repeat split; try done.
  - by rewrite Horbs, list_lookup_alter_eq, Horb.
  - intros Hwater.
    destruct (use_water_ok orb w1) as (w2 & Hrun2 & Hw2 & _ & Hf2 & Horbs2 & _);
      [lia|].
    exists w2. repeat split; try done; [|lia|lia].
    by rewrite Horbs2, Horbs, !list_lookup_alter_eq, Horb.
Qed.

(** [use_water] overwrites the tag of an orb whatever it was. *)
Lemma use_water_overwrites (orb : nat) (o : Orb) (w : MagicEditor F) :
  orbs w !! orb = Some o ->
  (5 <= water (player w))%Z ->
  element <$> orbs (fst (use_water orb w)) !! orb = Some (Some Water).
Proof.
  intros Horb Hwater.
  destruct (use_water_ok orb w Hwater) as (w2 & Hrun & _ & _ & _ & Horbs & _).
  rewrite Hrun. cbn. by rewrite Horbs, list_lookup_alter_eq, Horb.
Qed.

(** ** The event bus *)

Lemma call_handler_ok cb args (w : MagicEditor F) :
  call_handler run_cb cb args w = (handled run_cb cb args w, Ok tt).
Proof.
  unfold handled, call_handler, try_except.
  by destruct (run_cb cb args w) as [w' [[]|exc]].
Qed.

Lemma call_handler_returned cb args (w w' : MagicEditor F) :
  run_cb cb args w = (w', Ok tt) ->
  call_handler run_cb cb args w = (w', Ok tt).
Proof. intros Hrun. unfold call_handler, try_except. by rewrite Hrun. Qed.

Lemma call_handler_raised cb args (w w' : MagicEditor F) exc :
  run_cb cb args w = (w', Raise exc) ->
  call_handler run_cb cb args w
  = (print ("Error in event handler: " +:+ str exc) w', Ok tt).
Proof. intros Hrun. unfold call_handler, try_except. by rewrite Hrun. Qed.

Lemma trigger_from_never_raises fuel event_type args i (w w' : MagicEditor F) r :
  trigger_from run_cb fuel event_type args i w = Some (w', r) -> r = Ok tt.
Proof.
  revert i w. induction fuel as [|fuel IH]; intros i w; simpl; [done|].
  destruct (handlers_of event_type w !! i) as [cb|]; [|congruence].
  rewrite call_handler_ok. apply IH.
Qed.

Lemma collide_orb_never_raises fuel orb (w w' : MagicEditor F) r :
  collide_orb run_cb fuel orb w = Some (w', r) -> r = Ok tt.
Proof.
  unfold collide_orb, trigger_event.
  destruct (orb_node orb w) as [nd|]; [|congruence].
  destruct (fle _ _); [|congruence].
  destruct (trigger_from _ _ _ _ _ _) as [[w3 [[]|exc]]|] eqn:Htrig;
    try congruence.
  by apply trigger_from_never_raises in Htrig.
Qed.

Lemma physics_from_never_raises fuel dt i (w w' : MagicEditor F) r :
  physics_from run_cb fuel dt i w = Some (w', r) -> r = Ok tt.
Proof.
  revert i w. induction fuel as [|fuel IH]; intros i w; simpl; [done|].
  destruct (orbs w !! i); [|congruence].
  unfold step_orb.
  destruct (collide_orb _ _ _ _) as [[w1 [[]|exc]]|] eqn:Hstep; try done.
  - apply IH.
  - by apply collide_orb_never_raises in Hstep.
Qed.



(** ** What the operations leave alone *)

Lemma apply_force_to_frame e force (w : MagicEditor F) :
  player (fst (apply_force_to e force w)) = player w
  /\ orbs (fst (apply_force_to e force w)) = orbs w
  /\ nodes (fst (apply_force_to e force w)) = nodes w
  /\ event_handlers (fst (apply_force_to e force w)) = event_handlers w
  /\ snd (apply_force_to e force w) = Ok tt.
Proof.
  unfold apply_force_to. destruct (entity e w); [|done].
  by destruct force.
Qed.

Lemma move_orb_frame dt orb (w : MagicEditor F) :
  player (move_orb dt orb w) = player w
  /\ orbs (move_orb dt orb w) = orbs w
  /\ event_handlers (move_orb dt orb w) = event_handlers w.
Proof. unfold move_orb. by destruct (orbs w !! orb). Qed.

Lemma stop_orb_frame orb (w : MagicEditor F) :
  player (stop_orb orb w) = player w
  /\ nodes (stop_orb orb w) = nodes w
  /\ event_handlers (stop_orb orb w) = event_handlers w.
Proof. done. Qed.

(** ** The ledger invariant *)

Lemma create_orb_nonneg force (w : MagicEditor F) :
  nonneg w -> nonneg (fst (create_orb force w)).
Proof.
  intros (Hm & Hf & Hw).
  destruct (Z.lt_ge_cases (mana (player w)) 10) as [Hlow|Hok].
  - by rewrite create_orb_low.
  - destruct (create_orb_ok force w Hok) as (w' & o & -> & Hm' & Hf' & Hw' & _).
    unfold nonneg. cbn. lia.
Qed.

Lemma use_fire_nonneg orb (w : MagicEditor F) :
  nonneg w -> nonneg (fst (use_fire orb w)).
Proof.
  intros (Hm & Hf & Hw).
  destruct (Z.lt_ge_cases (fire (player w)) 5) as [Hlow|Hok].
  - by rewrite use_fire_low.
  - destruct (use_fire_ok orb w Hok) as (w' & -> & Hf' & Hm' & Hw' & _).
    unfold nonneg. cbn. lia.
Qed.

Lemma use_water_nonneg orb (w : MagicEditor F) :
  nonneg w -> nonneg (fst (use_water orb w)).
Proof.
  intros (Hm & Hf & Hw).
  destruct (Z.lt_ge_cases (water (player w)) 5) as [Hlow|Hok].
  - by rewrite use_water_low.
  - destruct (use_water_ok orb w Hok) as (w' & -> & Hw' & Hm' & Hf' & _).
    unfold nonneg. cbn. lia.
Qed.

Lemma apply_force_to_nonneg e force (w : MagicEditor F) :
  nonneg w -> nonneg (fst (apply_force_to e force w)).
Proof.
  unfold nonneg. by destruct (apply_force_to_frame e force w) as (-> & _).
Qed.

Lemma on_event_nonneg event_type callback (w : MagicEditor F) :
  nonneg w -> nonneg (fst (on_event event_type callback w)).
Proof. done. Qed.

Lemma initial_nonneg : nonneg (initial (F := F)).
Proof. unfold nonneg; cbn; lia. Qed.

(** ** The physics task *)

Lemma move_orb_spec dt orb o (w : MagicEditor F) :
  orbs w !! orb = Some o ->
  node (orb_entity o) < length (nodes w) ->
  velocity (orb_entity o) < length (vecs w) ->
  getPos (node (orb_entity o)) (move_orb dt orb w)
  = vadd (getPos (node (orb_entity o)) w)
         (vscale (vget w (velocity (orb_entity o))) dt)
  /\ vget (move_orb dt orb w) (velocity (orb_entity o))
     = vscale (vget w (velocity (orb_entity o))) damping
  /\ orb_velocity orb (move_orb dt orb w)
     = Some (vscale (vget w (velocity (orb_entity o))) damping)
  /\ orb_node orb (move_orb dt orb w) = Some (node (orb_entity o)).
Proof.
  intros Ho Hnd Hv. unfold orb_velocity, orb_node, move_orb. rewrite Ho.
  unfold getPos, nget, vget, vput, setPos. cbn. rewrite Ho. cbn.
  rewrite list_lookup_alter_eq, list_lookup_insert_eq by done.
  destruct (lookup_lt_is_Some_2 _ _ Hnd) as [n ->]. by cbn.
Qed.

Lemma collide_orb_clear fuel orb nd (w : MagicEditor F) :
  orb_node orb w = Some nd ->
  fle (getZ nd w) (lit 0) = false ->
  collide_orb run_cb fuel orb w = Some (w, Ok tt).
Proof. intros Hnd Hz. unfold collide_orb. by rewrite Hnd, Hz. Qed.

(** C4: for an orb of [self.orbs], one round of the loop of
    [update_physics] first moves the node by the velocity as it is before
    damping, times [dt], then multiplies the velocity by 0.98 whatever [dt]
    is, and only then tests for the ground; when the orb ends above the
    ground that is all the round does. *)
Theorem physics_update_order fuel (dt dt' : F) orb o (w : MagicEditor F) :
  orbs w !! orb = Some o ->
  node (orb_entity o) < length (nodes w) ->
  velocity (orb_entity o) < length (vecs w) ->
  getPos (node (orb_entity o)) (move_orb dt orb w)
  = vadd (getPos (node (orb_entity o)) w)
         (vscale (vget w (velocity (orb_entity o))) dt)
  /\ vget (move_orb dt orb w) (velocity (orb_entity o))
     = vscale (vget w (velocity (orb_entity o))) damping
  /\ vget (move_orb dt' orb w) (velocity (orb_entity o))
     = vget (move_orb dt orb w) (velocity (orb_entity o))
  /\ step_orb run_cb fuel dt orb w
     = collide_orb run_cb fuel orb (move_orb dt orb w)
  /\ (fle (getZ (node (orb_entity o)) (move_orb dt orb w)) (lit 0) = false ->
      step_orb run_cb fuel dt orb w = Some (move_orb dt orb w, Ok tt))
  /\ physics_from run_cb (S fuel) dt orb w
     = match step_orb run_cb fuel dt orb w with
       | Some (w', Ok _) => physics_from run_cb fuel dt (S orb) w'
       | Some (w', Raise exc) => Some (w', Raise exc)
       | None => None
       end.
Proof.
  intros Ho Hnd Hv.
  destruct (move_orb_spec dt orb o w Ho Hnd Hv) as (Hpos & Hvel & _ & Hnode).
  destruct (move_orb_spec dt' orb o w Ho Hnd Hv) as (_ & Hvel' & _).
  repeat split; try done.
  - by rewrite Hvel, Hvel'.
  - intros Hz. unfold step_orb. by eapply collide_orb_clear.
  - simpl. by rewrite Ho.
Qed.

Lemma stop_orb_velocity orb o (w : MagicEditor F) :
  orbs w !! orb = Some o -> orb_velocity orb (stop_orb orb w) = Some vzero.
Proof.
  intros Ho. unfold orb_velocity, stop_orb, vget. cbn.
  rewrite list_lookup_alter_eq, Ho. cbn. by rewrite lookup_app_length.
Qed.

(** An orb at rest on the ground (height 0, no vertical velocity) meets the
    ground test of every later round, in any arithmetic in which
    [0 + 0 * dt <= 0]: the round dispatches the impact event again. *)
Lemma resting_orb_meets_ground_test fuel (dt : F) orb o (w : MagicEditor F) :
  orbs w !! orb = Some o ->
  node (orb_entity o) < length (nodes w) ->
  velocity (orb_entity o) < length (vecs w) ->
  getZ (node (orb_entity o)) w = lit 0 ->
  vz (vget w (velocity (orb_entity o))) = lit 0 ->
  fle (fadd (lit 0) (fmul (lit 0) dt)) (lit 0) = true ->
  step_orb run_cb fuel dt orb w
  = match trigger_event run_cb fuel "impact"
            [VEntity (EOrb orb); VEntity EGround]
            (setZ (node (orb_entity o)) (lit 0) (move_orb dt orb w)) with
    | Some (w', Ok _) => Some (stop_orb orb w', Ok tt)
    | Some (w', Raise exc) => Some (w', Raise exc)
    | None => None
    end.
Proof.
  intros Ho Hnd Hv Hz Hvz Hle.
  destruct (move_orb_spec dt orb o w Ho Hnd Hv) as (Hpos & _ & _ & Hnode).
  unfold step_orb, collide_orb. rewrite Hnode.
  unfold getZ in *. rewrite Hpos. simpl. by rewrite Hz, Hvz, Hle.
Qed.


(** ** Spell execution *)







(** ** The namespace *)



Lemma no_import : allowed_builtins !! "__import__" = None.
Proof. done. Qed.



(** * Further properties *)

(** ** The vector store *)

Lemma vget_valloc_old v r (w : MagicEditor F) :
  r < length (vecs w) -> vget (snd (valloc v w)) r = vget w r.
Proof. intros Hr. unfold vget, valloc. cbn. by rewrite lookup_app_l. Qed.

Lemma vget_valloc_new v (w : MagicEditor F) :
  vget (snd (valloc v w)) (length (vecs w)) = v.
Proof. unfold vget, valloc. cbn. by rewrite lookup_app_length. Qed.

Lemma vget_vput_eq r v (w : MagicEditor F) :
  r < length (vecs w) -> vget (vput r v w) r = v.
Proof. intros Hr. unfold vget, vput. cbn. by rewrite list_lookup_insert_eq. Qed.

Lemma vget_vput_ne r r' v (w : MagicEditor F) :
  r <> r' -> vget (vput r v w) r' = vget w r'.
Proof. intros Hr. unfold vget, vput. cbn. by rewrite list_lookup_insert_ne. Qed.

Lemma entity_orbs_app e ent o (w w' : MagicEditor F) :
  ground w' = ground w ->
  player_entity (player w') = player_entity (player w) ->
  hands (player w') = hands (player w) ->
  feet (player w') = feet (player w) ->
  orbs w' = orbs w ++ [o] ->
  entity e w = Some ent -> entity e w' = Some ent.
Proof.
  intros Hg Hp Hh Hf Ho.
  destruct e as [| | | |i]; simpl; rewrite ?Hg, ?Hp, ?Hh, ?Hf; try done.
  rewrite Ho. intros Hi.
  destruct (orbs w !! i) as [oi|] eqn:Hoi; [|done].
  by rewrite (lookup_app_l_Some _ _ _ _ Hoi).
Qed.

(** ** Forces *)

Lemma apply_force_to_spec e ent force (w : MagicEditor F) :
  entity e w = Some ent ->
  velocity ent < length (vecs w) ->
  exists w',
    apply_force_to e force w = (w', Ok tt)
    /\ vget w' (velocity ent)
       = vadd (vget w (velocity ent)) (force_vec force w)
    /\ (forall r, r < length (vecs w) -> r <> velocity ent ->
          vget w' r = vget w r)
    /\ ground w' = ground w /\ player w' = player w /\ orbs w' = orbs w
    /\ nodes w' = nodes w /\ event_handlers w' = event_handlers w.
Proof.
  intros Hent Hv. unfold apply_force_to. rewrite Hent.
  destruct force as [x y z|r]; cbn [_parse_vec force_vec].
  - destruct (valloc (mkVec3 x y z) w) as [v w1] eqn:Halloc.
    assert (v = length (vecs w) /\ w1 = snd (valloc (mkVec3 x y z) w))
      as [-> ->] by (by rewrite Halloc in *; inversion Halloc).
    eexists. split; [reflexivity|].
    split.
    { rewrite vget_vput_eq by (cbn; rewrite length_app; lia).
      by rewrite vget_valloc_old, vget_valloc_new. }
    split; [|done].
    intros r Hr Hne. rewrite vget_vput_ne by done. by apply vget_valloc_old.
  - eexists. split; [reflexivity|].
    split; [by rewrite vget_vput_eq|].
    split; [|done].
    intros r' Hr Hne. by rewrite vget_vput_ne.
Qed.

(** X1: [apply_force_to] costs nothing and never fails: it adds the force
    to the velocity vector of the entity, in place, and leaves every other
    vector, the ledger, the orbs, the nodes and the handlers as they were; two
    calls add up. *)
Theorem apply_force_to_adds e ent force force' (w : MagicEditor F) :
  entity e w = Some ent ->
  velocity ent < length (vecs w) ->
  exists w1 w2,
    apply_force_to e force w = (w1, Ok tt)
    /\ vget w1 (velocity ent)
       = vadd (vget w (velocity ent)) (force_vec force w)
    /\ (forall r, r < length (vecs w) -> r <> velocity ent ->
          vget w1 r = vget w r)
    /\ player w1 = player w /\ orbs w1 = orbs w
    /\ nodes w1 = nodes w /\ event_handlers w1 = event_handlers w
    /\ apply_force_to e force' w1 = (w2, Ok tt)
    /\ vget w2 (velocity ent)
       = vadd (vadd (vget w (velocity ent)) (force_vec force w))
              (force_vec force' w1).
Proof.
  intros Hent Hv.
  destruct (apply_force_to_spec e ent force w Hent Hv)
    as (w1 & Hrun & Hadd & Hothers & Hg & Hp & Ho & Hn & Hh).
  assert (Hent1 : entity e w1 = Some ent).
  { destruct e; simpl in *; by rewrite ?Hg, ?Hp, ?Ho. }
  assert (Hv1 : velocity ent < length (vecs w1)).
  { unfold apply_force_to in Hrun. rewrite Hent in Hrun.
    destruct force; cbn in Hrun; inversion Hrun; subst; cbn;
      rewrite ?length_insert, ?length_app; lia. }
  destruct (apply_force_to_spec e ent force' w1 Hent1 Hv1)
    as (w2 & Hrun2 & Hadd2 & _).
  exists w1, w2. rewrite Hadd2, Hadd. by repeat split.
Qed.

(** ** Creating orbs *)

Lemma create_orb_store force (w : MagicEditor F) :
  (10 <= mana (player w))%Z ->
  exists w' o,
    create_orb force w = (w', Ok (length (orbs w)))
    /\ orbs w' = orbs w ++ [o]
    /\ ground w' = ground w
    /\ player w' = set_mana (mana (player w) - 10)%Z (player w)
    /\ event_handlers w' = event_handlers w
    /\ node (orb_entity o) = length (nodes w)
    /\ velocity (orb_entity o)
       = match force with
         | FVec3 r => r
         | FSeq _ _ _ => S (length (vecs w))
         end
    /\ element o = None
    /\ vecs w'
       = vecs w ++ vzero ::
         match force with
         | FVec3 _ => []
         | FSeq x y z => [mkVec3 x y z]
         end
    /\ nodes w'
       = nodes w ++
         [mkNode (vadd (getPos (node (player_entity (player w))) w) orb_offset)
                 (lit (3 # 10)) None].
Proof.
  intros Hok. unfold create_orb.
  destruct (Z.ltb_spec (mana (player w)) 10); [lia|].
  assert (Hnodes :
    alter (fun n : NodePath F =>
             mkNode (vadd (getPos (node (player_entity (player w))) w) orb_offset)
                    (scale n) (color n)) (length (nodes w))
      (alter (fun n : NodePath F => mkNode (pos n) (lit (3 # 10)) (color n))
         (length (nodes w)) (nodes w ++ [fresh_node]))
    = nodes w ++
      [mkNode (vadd (getPos (node (player_entity (player w))) w) orb_offset)
              (lit (3 # 10)) None]).
  { rewrite !alter_app_r_alt by lia.
    by rewrite Nat.sub_diag. }
  destruct force as [x y z|r]; cbn;
    (eexists _, _; split; [reflexivity|]);
    unfold getPos, nget, setPos, setScale, set_orb_velocity, set_velocity;
    cbn; rewrite ?pos_alter_default, ?default_app_same by done;
    rewrite ?Hnodes, ?length_app, <- ?app_assoc; cbn;
    repeat split; try done.
  cbn. lia.
Qed.

(** X2: [_parse_vec] returns a [Vec3] argument as it is, so an orb created
    with the velocity vector of an entity shares that vector with it: the orb
    starts with the entity's velocity, and every later force on the entity
    changes the orb's velocity by the same amount. *)
Theorem create_orb_shares_vector e ent (w : MagicEditor F) :
  (10 <= mana (player w))%Z ->
  entity e w = Some ent ->
  velocity ent < length (vecs w) ->
  exists w1 o,
    create_orb (FVec3 (velocity ent)) w = (w1, Ok (length (orbs w)))
    /\ orbs w1 !! length (orbs w) = Some o
    /\ velocity (orb_entity o) = velocity ent
    /\ orb_velocity (length (orbs w)) w1 = Some (vget w (velocity ent))
    /\ forall force,
         orb_velocity (length (orbs w)) (fst (apply_force_to e force w1))
         = Some (vadd (vget w (velocity ent)) (force_vec force w1)).
Proof.
  intros Hmana Hent Hv.
  destruct (create_orb_store (FVec3 (velocity ent)) w Hmana)
    as (w1 & o & Hrun & Ho & Hg & Hp & _ & _ & Hvel & _ & Hvecs & _).
  assert (Hlook : orbs w1 !! length (orbs w) = Some o)
    by (rewrite Ho; apply lookup_app_length).
  assert (Hsame : vget w1 (velocity ent) = vget w (velocity ent)).
  { unfold vget. rewrite Hvecs. by rewrite lookup_app_l. }
  exists w1, o. repeat split; try done.
  - unfold orb_velocity. rewrite Hlook. cbn. by rewrite Hvel, Hsame.
  - intros force.
    assert (Hent1 : entity e w1 = Some ent).
    { eapply entity_orbs_app; try eassumption; by rewrite Hp. }
    destruct (apply_force_to_spec e ent force w1 Hent1)
      as (w2 & Hrun2 & Hadd & _ & _ & _ & Ho2 & _).
    { rewrite Hvecs, length_app. lia. }
    rewrite Hrun2. unfold orb_velocity. cbn. rewrite Ho2, Hlook. cbn.
    by rewrite Hvel, Hadd, Hsame.
Qed.

(** X3: an orb created with a sequence of three numbers gets a vector of its
    own: its velocity is that sequence, and no force applied afterwards to an
    entity that existed before changes it. *)
Theorem create_orb_fresh_vector x y z e ent (w : MagicEditor F) :
  (10 <= mana (player w))%Z ->
  entity e w = Some ent ->
  velocity ent < length (vecs w) ->
  exists w1,
    create_orb (FSeq x y z) w = (w1, Ok (length (orbs w)))
    /\ orb_velocity (length (orbs w)) w1 = Some (mkVec3 x y z)
    /\ forall force,
         orb_velocity (length (orbs w)) (fst (apply_force_to e force w1))
         = Some (mkVec3 x y z).
Proof.
  intros Hmana Hent Hv.
  destruct (create_orb_store (FSeq x y z) w Hmana)
    as (w1 & o & Hrun & Ho & Hg & Hp & _ & _ & Hvel & _ & Hvecs & _).
  assert (Hlook : orbs w1 !! length (orbs w) = Some o)
    by (rewrite Ho; apply lookup_app_length).
  assert (Hnew : vget w1 (S (length (vecs w))) = mkVec3 x y z).
  { unfold vget. rewrite Hvecs.
    rewrite lookup_app_r, Nat.sub_succ_l, Nat.sub_diag by lia. done. }
  exists w1. repeat split; try done.
  - unfold orb_velocity. rewrite Hlook. cbn. by rewrite Hvel, Hnew.
  - intros force.
    assert (Hent1 : entity e w1 = Some ent).
    { eapply entity_orbs_app; try eassumption; by rewrite Hp. }
    destruct (apply_force_to_spec e ent force w1 Hent1)
      as (w2 & Hrun2 & _ & Hothers & _ & _ & Ho2 & _).
    { rewrite Hvecs, length_app. lia. }
    rewrite Hrun2. unfold orb_velocity. cbn. rewrite Ho2, Hlook. cbn.
    rewrite Hvel, Hothers, Hnew; [done| |lia].
    rewrite Hvecs, length_app. simpl. lia.
Qed.

(** ** Registrations and tags *)

(** X4: [on_event] appends the callback to the list of its own event type,
    also when it is in the list already, and changes the list of no other
    type; each registration makes the list one longer. *)
Theorem on_event_registers event_type callback (w : MagicEditor F) :
  handlers_of event_type (fst (on_event event_type callback w))
  = handlers_of event_type w ++ [callback]
  /\ (forall other, other <> event_type ->
        handlers_of other (fst (on_event event_type callback w))
        = handlers_of other w)
  /\ (forall n,
        handlers_of event_type
          (Nat.iter n (fun w => fst (on_event event_type callback w)) w)
        = handlers_of event_type w ++ replicate n callback).
Proof.
  assert (Hone : forall w0 : MagicEditor F,
            handlers_of event_type (fst (on_event event_type callback w0))
            = handlers_of event_type w0 ++ [callback]).
  { intros w0. unfold on_event, handlers_of. cbn. by rewrite lookup_insert_eq. }
  split; [apply Hone|]. split.
  - intros other Hne. unfold on_event, handlers_of. cbn.
    by rewrite lookup_insert_ne.
  - induction n as [|n IH]; cbn [Nat.iter nat_rect].
    + by rewrite app_nil_r.
    + change (nat_rect _ ?x ?f n) with (Nat.iter n (fun w => f n w) x) in *.
      rewrite Hone.
      change (handlers_of event_type
                (Nat.iter n (fun w => fst (on_event event_type callback w)) w)
              ++ [callback]
              = handlers_of event_type w ++ replicate (S n) callback).
      rewrite IH, <- app_assoc. f_equal.
      clear. induction n as [|n IH]; [done|]. simpl. by rewrite IH.
Qed.



(** ** Whole ticks *)

Lemma trigger_from_none rc fuel event_type args i (w : MagicEditor F) :
  handlers_of event_type w = [] ->
  trigger_from rc (S fuel) event_type args i w = Some (w, Ok tt).
Proof. intros Hnone. simpl. by rewrite Hnone, lookup_nil. Qed.

(** A round of the physics loop in a state with no impact handler. *)
Lemma step_orb_no_handlers rc fuel dt orb (w : MagicEditor F) :
  handlers_of "impact" w = [] ->
  step_orb rc (S fuel) dt orb w
  = Some (match orb_node orb (move_orb dt orb w) with
          | Some nd =>
              if fle (getZ nd (move_orb dt orb w)) (lit 0)
              then stop_orb orb (setZ nd (lit 0) (move_orb dt orb w))
              else move_orb dt orb w
          | None => move_orb dt orb w
          end, Ok tt).
Proof.
  intros Hnone. unfold step_orb, collide_orb, trigger_event.
  destruct (orb_node orb (move_orb dt orb w)) as [nd|]; [|done].
  destruct (fle _ _); [|done].
  rewrite trigger_from_none; [done|].
  destruct (move_orb_frame dt orb w) as (_ & _ & Hh).
  unfold handlers_of in *. cbn. by rewrite Hh.
Qed.

Lemma step_orb_keeps_handlers rc fuel dt orb (w w' : MagicEditor F) r :
  handlers_of "impact" w = [] ->
  step_orb rc fuel dt orb w = Some (w', r) ->
  event_handlers w' = event_handlers w /\ player w' = player w
  /\ length (orbs w') = length (orbs w).
Proof.
  intros Hnone. destruct fuel as [|fuel].
  - unfold step_orb, collide_orb, trigger_event. simpl.
    destruct (move_orb_frame dt orb w) as (Hp & Ho & Hh).
    destruct (orb_node orb (move_orb dt orb w)) as [nd|];
      [destruct (fle _ _); [done|]|]; intros [= <- <-]; by rewrite Ho.
  - rewrite step_orb_no_handlers by done. intros [= <- <-].
    destruct (move_orb_frame dt orb w) as (Hp & Ho & Hh).
    destruct (orb_node orb (move_orb dt orb w)) as [nd|];
      [destruct (fle _ _)|]; cbn; rewrite ?length_alter, ?Ho; done.
Qed.

(** X8: [update_physics] dispatches the event "impact" and no other: in a
    state with no handler registered under "impact", the tick is the same
    whatever the callbacks registered under other names would do, so none of
    them is ever called; with more fuel than there are orbs the tick ends,
    and it leaves the ledger, the handlers and the number of orbs alone. *)
Theorem update_physics_calls_impact_only
    (run_cb' : cbid -> list value -> MagicEditor F -> MagicEditor F * result unit)
    fuel dt (w : MagicEditor F) :
  handlers_of "impact" w = [] ->
  update_physics run_cb fuel dt w = update_physics run_cb' fuel dt w
  /\ (length (orbs w) < fuel ->
      exists w', update_physics run_cb fuel dt w = Some (w', Ok tt)
                 /\ player w' = player w
                 /\ event_handlers w' = event_handlers w
                 /\ length (orbs w') = length (orbs w)).
Proof.
  intros Hnone. unfold update_physics. generalize 0 as i.
  assert (Hgen : forall fuel i (w0 : MagicEditor F),
    handlers_of "impact" w0 = [] ->
    physics_from run_cb fuel dt i w0 = physics_from run_cb' fuel dt i w0
    /\ (length (orbs w0) - i < fuel ->
        exists w', physics_from run_cb fuel dt i w0 = Some (w', Ok tt)
                   /\ player w' = player w0
                   /\ event_handlers w' = event_handlers w0
                   /\ length (orbs w') = length (orbs w0))).
  { clear. induction fuel as [|fuel IH]; intros i w0 Hnone.
    { split; [done | lia]. }
    simpl. destruct (orbs w0 !! i) as [o|] eqn:Ho.
    2: { split; [done|]. intros _. by exists w0. }
    pose proof (lookup_lt_Some _ _ _ Ho) as Hlt.
    destruct fuel as [|fuel].
    { split; [|lia].
      unfold step_orb, collide_orb, trigger_event. simpl.
      destruct (orb_node i (move_orb dt i w0)) as [nd|];
        [destruct (fle _ _)|]; done. }
    rewrite !step_orb_no_handlers by done.
    set (w1 := match orb_node i (move_orb dt i w0) with
               | Some nd => _ | None => _ end).
    destruct (step_orb_keeps_handlers run_cb (S fuel) dt i w0 w1 (Ok tt) Hnone)
      as (Hh & Hp & Hlen); [by rewrite step_orb_no_handlers|].
    assert (Hnone1 : handlers_of "impact" w1 = [])
      by (unfold handlers_of in *; by rewrite Hh).
    destruct (IH (S i) w1 Hnone1) as [Heq Hend].
    split; [exact Heq|].
    intros Hfuel. destruct Hend as (w' & Hrun & Hp' & Hh' & Hlen'); [lia|].
    exists w'. split; [exact Hrun|]. repeat split; congruence. }
  intros i. destruct (Hgen fuel i w Hnone) as [Heq Hend].
  split; [exact Heq|]. intros Hfuel. apply Hend. lia.
Qed.


Lemma move_orb_others dt orb o (w : MagicEditor F) :
  orbs w !! orb = Some o ->
  (forall r, r <> node (orb_entity o) ->
     getPos r (move_orb dt orb w) = getPos r w)
  /\ (forall r, r <> velocity (orb_entity o) ->
        vget (move_orb dt orb w) r = vget w r)
  /\ length (nodes (move_orb dt orb w)) = length (nodes w)
  /\ length (vecs (move_orb dt orb w)) = length (vecs w).
Proof.
  intros Ho. unfold move_orb. rewrite Ho.
  unfold getPos, nget, vget, vput, setPos. cbn.
  rewrite length_alter, length_insert. repeat split; try done.
  - intros r Hr. by rewrite list_lookup_alter_ne.
  - intros r Hr. by rewrite list_lookup_insert_ne.
Qed.

Lemma separate_nodes i j oi oj (w : MagicEditor F) :
  separate w -> orbs w !! i = Some oi -> orbs w !! j = Some oj -> i <> j ->
  node (orb_entity oi) <> node (orb_entity oj)
  /\ velocity (orb_entity oi) <> velocity (orb_entity oj).
Proof.
  intros (Hn & Hv & _) Hi Hj Hne. split; intros Heq; apply Hne.
  - eapply (NoDup_lookup _ i j _ Hn); unfold orb_nodes;
      rewrite list_lookup_fmap, ?Hi, ?Hj; cbn; by rewrite ?Heq.
  - eapply (NoDup_lookup _ i j _ Hv); unfold orb_vectors;
      rewrite list_lookup_fmap, ?Hi, ?Hj; cbn; by rewrite ?Heq.
Qed.

(** X10: a whole tick in which no orb reaches the ground, for orbs that
    each have a node and a vector of their own: the tick ends normally, every
    orb has moved by its velocity times [dt] and has its velocity multiplied
    by 0.98, and no other node, no other vector, no balance and no handler has
    changed; no callback is called. *)
Theorem free_flight_tick fuel dt (w : MagicEditor F) :
  separate w ->
  (forall i o, orbs w !! i = Some o ->
     fle (vz (vadd (getPos (node (orb_entity o)) w)
                   (vscale (vget w (velocity (orb_entity o))) dt)))
         (lit 0) = false) ->
  length (orbs w) < fuel ->
  exists w',
    update_physics run_cb fuel dt w = Some (w', Ok tt)
    /\ orbs w' = orbs w /\ player w' = player w
    /\ event_handlers w' = event_handlers w
    /\ (forall i o, orbs w !! i = Some o ->
          getPos (node (orb_entity o)) w'
          = vadd (getPos (node (orb_entity o)) w)
                 (vscale (vget w (velocity (orb_entity o))) dt)
          /\ vget w' (velocity (orb_entity o))
             = vscale (vget w (velocity (orb_entity o))) damping)
    /\ (forall r, r ∉ orb_nodes w -> getPos r w' = getPos r w)
    /\ (forall r, r ∉ orb_vectors w -> vget w' r = vget w r).
Proof.
  intros Hsep Hclear Hfuel. unfold update_physics.
  set (moved := fun o : Orb =>
         vadd (getPos (node (orb_entity o)) w)
              (vscale (vget w (velocity (orb_entity o))) dt)).
  set (damped := fun o : Orb => vscale (vget w (velocity (orb_entity o))) damping).
  set (Inv := fun (i : nat) (wi : MagicEditor F) =>
    orbs wi = orbs w /\ player wi = player w
    /\ event_handlers wi = event_handlers w
    /\ length (nodes wi) = length (nodes w)
    /\ length (vecs wi) = length (vecs w)
    /\ (forall k o, orbs w !! k = Some o ->
          (k < i -> getPos (node (orb_entity o)) wi = moved o
                    /\ vget wi (velocity (orb_entity o)) = damped o)
          /\ (i <= k -> getPos (node (orb_entity o)) wi
                        = getPos (node (orb_entity o)) w
                        /\ vget wi (velocity (orb_entity o))
                           = vget w (velocity (orb_entity o))))
    /\ (forall r, r ∉ orb_nodes w -> getPos r wi = getPos r w)
    /\ (forall r, r ∉ orb_vectors w -> vget wi r = vget w r)).
  assert (Hgen : forall fuel i wi,
    Inv i wi -> length (orbs w) - i < fuel ->
    exists w', physics_from run_cb fuel dt i wi = Some (w', Ok tt)
               /\ Inv (Nat.max i (length (orbs w))) w').
  { clear fuel Hfuel.
    induction fuel as [|fuel IH]; intros i wi HInv Hfuel; [lia|].
    destruct HInv as (Ho & Hp & Hh & Hln & Hlv & Horb & Hnodes & Hvecs).
    simpl. rewrite Ho. destruct (orbs w !! i) as [o|] eqn:Hi.
    2: { exists wi. split; [done|].
         apply lookup_ge_None in Hi.
         replace (Nat.max i (length (orbs w))) with i by lia.
         exact (conj Ho (conj Hp (conj Hh (conj Hln (conj Hlv
                  (conj Horb (conj Hnodes Hvecs))))))). }
    pose proof (lookup_lt_Some _ _ _ Hi) as Hlt.
    destruct Hsep as (Hnd & Hvd & Hvalid).
    destruct (Hvalid i o Hi) as [Hnv Hvv].
    assert (Hiw : orbs wi !! i = Some o) by by rewrite Ho.
    destruct (move_orb_spec dt i o wi Hiw) as (Hpos & Hvel & _ & Hnode);
      [lia|lia|].
    destruct (move_orb_others dt i o wi Hiw) as (Hpo & Hvo & Hln' & Hlv').
    destruct (move_orb_frame dt i wi) as (Hp' & Ho' & Hh').
    destruct (Horb i o Hi) as [_ Hcur]. destruct Hcur as [Hcp Hcv]; [lia|].
    rewrite Hcp, Hcv in Hpos. rewrite Hcv in Hvel.
    assert (Hstep : step_orb run_cb fuel dt i wi
                    = Some (move_orb dt i wi, Ok tt)).
    { unfold step_orb. eapply collide_orb_clear; [exact Hnode|].
      unfold getZ. rewrite Hpos. by apply (Hclear i). }
    rewrite Hstep.
    destruct (IH (S i) (move_orb dt i wi)) as (w' & Hrun & HInv'); [|lia|].
    { split; [congruence|]. split; [congruence|]. split; [congruence|].
      split; [congruence|]. split; [congruence|]. split; [|split].
      - intros k ok Hk.
        destruct (decide (k = i)) as [->|Hne].
        + assert (ok = o) as -> by congruence. split; [done | lia].
        + destruct (separate_nodes k i ok o w (conj Hnd (conj Hvd Hvalid))
                      Hk Hi Hne) as [Hn1 Hn2].
          rewrite Hpo, Hvo by done.
          destruct (Horb k ok Hk) as [Hlow Hhigh].
          split; intros Hki; [apply Hlow | apply Hhigh]; lia.
      - intros r Hr. rewrite Hpo; [by apply Hnodes|].
        intros ->. apply Hr. unfold orb_nodes.
        apply list_elem_of_fmap. exists o. split; [done|].
        by eapply list_elem_of_lookup_2.
      - intros r Hr. rewrite Hvo; [by apply Hvecs|].
        intros ->. apply Hr. unfold orb_vectors.
        apply list_elem_of_fmap. exists o. split; [done|].
        by eapply list_elem_of_lookup_2. }
    exists w'. split; [exact Hrun|].
    by replace (Nat.max i (length (orbs w)))
      with (Nat.max (S i) (length (orbs w))) by lia. }
  destruct (Hgen fuel 0 w) as (w' & Hrun & HInv); [|lia|].
  { do 5 (split; [done|]). split; [|by split].
    intros k o Hk. split; [lia | done]. }
  destruct HInv as (Ho & Hp & Hh & _ & _ & Horb & Hnodes & Hvecs).
  exists w'. split; [exact Hrun|]. split; [exact Ho|]. split; [exact Hp|].
  split; [exact Hh|]. split; [|by split].
  intros i o Hi. destruct (Horb i o Hi) as [Hlow _]. apply Hlow.
  pose proof (lookup_lt_Some _ _ _ Hi). lia.
Qed.

(** X11: two orbs that share a velocity vector (the second was created with
    the [Vec3] of the first): the vector is damped in the round of each of
    them, so the orb that comes second in [self.orbs] moves by the velocity
    already multiplied by 0.98, and after both rounds the shared velocity has
    been multiplied by 0.98 twice. *)
Theorem shared_vector_damped_twice dt i j oi oj (w : MagicEditor F) :
  orbs w !! i = Some oi ->
  orbs w !! j = Some oj ->
  velocity (orb_entity oj) = velocity (orb_entity oi) ->
  node (orb_entity oi) <> node (orb_entity oj) ->
  node (orb_entity oi) < length (nodes w) ->
  node (orb_entity oj) < length (nodes w) ->
  velocity (orb_entity oi) < length (vecs w) ->
  let v := vget w (velocity (orb_entity oi)) in
  let w2 := move_orb dt j (move_orb dt i w) in
  getPos (node (orb_entity oi)) w2
  = vadd (getPos (node (orb_entity oi)) w) (vscale v dt)
  /\ getPos (node (orb_entity oj)) w2
     = vadd (getPos (node (orb_entity oj)) w) (vscale (vscale v damping) dt)
  /\ vget w2 (velocity (orb_entity oi)) = vscale (vscale v damping) damping.
Proof.
  intros Hi Hj Hshare Hnodes Hni Hnj Hv v w2.
  destruct (move_orb_spec dt i oi w Hi Hni Hv) as (Hpos1 & Hvel1 & _).
  destruct (move_orb_others dt i oi w Hi) as (Hpo1 & _ & Hln1 & Hlv1).
  destruct (move_orb_frame dt i w) as (_ & Ho1 & _).
  assert (Hj1 : orbs (move_orb dt i w) !! j = Some oj) by by rewrite Ho1.
  destruct (move_orb_spec dt j oj (move_orb dt i w) Hj1)
    as (Hpos2 & Hvel2 & _); [lia | rewrite Hshare; lia |].
  destruct (move_orb_others dt j oj (move_orb dt i w) Hj1) as (Hpo2 & _).
  subst v w2. split; [|split].
  - rewrite Hpo2 by done. exact Hpos1.
  - rewrite Hpos2, Hshare, Hvel1, Hpo1 by done. done.
  - rewrite <- Hshare, Hvel2, Hshare, Hvel1. done.
Qed.

(** X12: the round of an orb that reaches the ground, with no impact handler
    registered: the orb keeps the horizontal position the move gave it, is at
    height 0, and gets a new zero vector as its velocity; the vector it had is
    left damped, not zeroed, so an entity sharing it keeps that velocity. *)
Theorem impact_rebinds_velocity fuel dt orb o (w : MagicEditor F) :
  orbs w !! orb = Some o ->
  node (orb_entity o) < length (nodes w) ->
  velocity (orb_entity o) < length (vecs w) ->
  handlers_of "impact" w = [] ->
  fle (getZ (node (orb_entity o)) (move_orb dt orb w)) (lit 0) = true ->
  let moved := vadd (getPos (node (orb_entity o)) w)
                    (vscale (vget w (velocity (orb_entity o))) dt) in
  exists w',
    step_orb run_cb (S fuel) dt orb w = Some (w', Ok tt)
    /\ getPos (node (orb_entity o)) w' = mkVec3 (vx moved) (vy moved) (lit 0)
    /\ orbs w' !! orb
       = Some (set_orb_velocity (length (vecs w)) o)
    /\ orb_velocity orb w' = Some vzero
    /\ vget w' (velocity (orb_entity o))
       = vscale (vget w (velocity (orb_entity o))) damping.
Proof.
  intros Ho Hnd Hv Hnone Hz moved.
  destruct (move_orb_spec dt orb o w Ho Hnd Hv) as (Hpos & Hvel & _ & Hnode).
  destruct (move_orb_others dt orb o w Ho) as (_ & _ & Hln & Hlv).
  destruct (move_orb_frame dt orb w) as (_ & Hom & _).
  rewrite step_orb_no_handlers, Hnode, Hz by done.
  eexists. split; [reflexivity|].
  assert (Hom' : orbs (setZ (node (orb_entity o)) (lit 0) (move_orb dt orb w))
                 !! orb = Some o) by (cbn; by rewrite Hom).
  split; [|split; [|split]].
  - unfold getPos, nget, stop_orb, setZ in *. cbn.
    rewrite list_lookup_alter_eq.
    destruct (nodes (move_orb dt orb w) !! node (orb_entity o)) as [n|] eqn:Hn.
    + cbn in *. rewrite Hpos. reflexivity.
    + apply lookup_ge_None in Hn. lia.
  - unfold stop_orb. cbn. rewrite list_lookup_alter_eq, Hom. cbn.
    by rewrite Hlv, Ho.
  - by eapply stop_orb_velocity.
  - unfold stop_orb, vget in *. cbn.
    rewrite lookup_app_l by lia. exact Hvel.
Qed.


(** ** Casting *)

(** X14: the spell [orb = create_orb(force); use_fire(orb)] (the editor
    opens with it) in any state: with less than 10 mana nothing happens but
    the message; with the mana but less than 5 fire the orb is created and
    paid for, and the cast still reports the fire error; otherwise the cast
    succeeds, 10 mana and 5 fire are gone and the new orb is tagged fire. *)
Theorem orb_then_fire_outcomes (force : force_value F) (w : MagicEditor F) :
  let w' := fst (cast_spell (Parsed (orb_then_fire force)) w) in
  ((mana (player w) < 10)%Z ->
     w' = update_stats (set_msg_var "Error: Not enough mana to create orb" w))
  /\ ((10 <= mana (player w))%Z -> (fire (player w) < 5)%Z ->
      w' = update_stats (set_msg_var "Error: Not enough fire energy"
                           (fst (create_orb force w)))
      /\ length (orbs w') = S (length (orbs w))
      /\ mana (player w') = (mana (player w) - 10)%Z)
  /\ ((10 <= mana (player w))%Z -> (5 <= fire (player w))%Z ->
      msg_var w' = "Spell cast successfully"
      /\ mana (player w') = (mana (player w) - 10)%Z
      /\ fire (player w') = (fire (player w) - 5)%Z
      /\ length (orbs w') = S (length (orbs w))
      /\ element <$> orbs w' !! length (orbs w) = Some (Some Fire)).
Proof.
  cbn zeta. unfold cast_spell, try_Exception, orb_then_fire. cbn [exec run].
  change (load_name "create_orb") with (Ok (VMethod ACreateOrb)).
  change (load_name "use_fire") with (Ok (VMethod AUseFire)).
  cbn [call_api].
  split; [|split].
  - intros Hlow. by rewrite create_orb_low.
  - intros Hmana Hfire.
    destruct (create_orb_store force w Hmana)
      as (w1 & o & Hrun & Ho & _ & Hp & _).
    rewrite Hrun. cbn [fst snd run call_api].
    rewrite use_fire_low by (by rewrite Hp). cbn.
    rewrite Ho, Hp, length_app. cbn. repeat split; lia.
  - intros Hmana Hfire.
    destruct (create_orb_store force w Hmana)
      as (w1 & o & Hrun & Ho & _ & Hp & _).
    rewrite Hrun. cbn [fst snd run call_api].
    destruct (use_fire_ok (length (orbs w)) w1)
      as (w2 & Hrun2 & Hf2 & Hm2 & _ & Ho2 & _); [by rewrite Hp|].
    rewrite Hrun2. cbn. rewrite Hf2, Hm2, Ho2, Hp, Ho. cbn.
    rewrite length_alter, length_app, list_lookup_alter_eq, lookup_app_length.
    cbn. repeat split; lia.
Qed.


(** ** Registrations made while an event is dispatched *)



End Facts.

(** * The event bus and the physics task, for any callbacks *)

Section Escapes.
Context {F : Type} `{Scalar F}.

(** With callbacks that raise within [Exception] only, the loops of
    [Escaping] are those of the sections above. *)
Lemma trigger_from_any_ending
    (rc : cbid -> list value -> MagicEditor F -> MagicEditor F * result unit)
    fuel event_type args i (w : MagicEditor F) :
  Escaping.trigger_from (any_ending rc) fuel event_type args i w
  = (fun st => (fst st, ended (snd st)))
      <$> trigger_from rc fuel event_type args i w.
Proof.
  revert i w. induction fuel as [|fuel IH]; intros i w; simpl; [done|].
  destruct (handlers_of event_type w !! i) as [cb|]; [|done].
  unfold Escaping.call_handler, call_handler, try_Exception, try_except,
    any_ending.
  destruct (rc cb args w) as [w1 [[]|exc]]; simpl; apply IH.
Qed.

Lemma physics_from_any_ending
    (rc : cbid -> list value -> MagicEditor F -> MagicEditor F * result unit)
    fuel dt i (w : MagicEditor F) :
  Escaping.physics_from (any_ending rc) fuel dt i w
  = (fun st => (fst st, ended (snd st))) <$> physics_from rc fuel dt i w.
Proof.
  revert i w. induction fuel as [|fuel IH]; intros i w; simpl; [done|].
  destruct (orbs w !! i); [|done].
  unfold Escaping.step_orb, step_orb, Escaping.collide_orb, collide_orb,
    Escaping.trigger_event, trigger_event.
  destruct (orb_node i (move_orb dt i w)) as [nd|]; [|apply IH].
  destruct (fle _ _); [|apply IH].
  rewrite trigger_from_any_ending.
  destruct (trigger_from rc fuel "impact" _ 0 _) as [[w1 [[]|exc]]|];
    simpl; [apply IH | done | done].
Qed.

Variable run_cb :
  cbid -> list value -> MagicEditor F -> MagicEditor F * ending unit.






(** ** What the loops keep *)

Section Relations.
Variable R : MagicEditor F -> MagicEditor F -> Prop.
Hypothesis R_refl : forall w, R w w.
Hypothesis R_trans : forall w1 w2 w3, R w1 w2 -> R w2 w3 -> R w1 w3.

(** [R] looks at the player, the number of orbs and the handlers only. *)
Hypothesis R_count :
  forall w w', player w' = player w -> length (orbs w') = length (orbs w) ->
               event_handlers w' = event_handlers w -> R w w'.

Hypothesis run_cb_rel : forall cb args w, R w (fst (run_cb cb args w)).

Lemma call_handler_rel cb args (w : MagicEditor F) :
  R w (fst (Escaping.call_handler run_cb cb args w)).
Proof.
  unfold Escaping.call_handler, try_Exception.
  pose proof (run_cb_rel cb args w) as Hcb.
  destruct (run_cb cb args w) as [w' [[]|exc|exc]]; [exact Hcb| |exact Hcb].
  eapply R_trans; [exact Hcb | by apply R_count].
Qed.

Lemma trigger_from_rel fuel event_type args i (w w' : MagicEditor F) r :
  Escaping.trigger_from run_cb fuel event_type args i w = Some (w', r) ->
  R w w'.
Proof.
  revert i w. induction fuel as [|fuel IH]; intros i w; simpl; [done|].
  destruct (handlers_of event_type w !! i) as [cb|];
    [|intros [= <- <-]; apply R_refl].
  pose proof (call_handler_rel cb args w) as Hcb.
  destruct (Escaping.call_handler run_cb cb args w) as [w1 [[]|exc|exc]];
    simpl in Hcb.
  - intros Hrun. eapply R_trans; [exact Hcb | eapply IH, Hrun].
  - by intros [= <- <-].
  - by intros [= <- <-].
Qed.

Lemma step_orb_rel fuel dt orb (w w' : MagicEditor F) r :
  Escaping.step_orb run_cb fuel dt orb w = Some (w', r) -> R w w'.
Proof.
  unfold Escaping.step_orb, Escaping.collide_orb, Escaping.trigger_event.
  assert (Hmove : R w (move_orb dt orb w)).
  { destruct (move_orb_frame dt orb w) as (? & Ho & ?).
    apply R_count; [done | by rewrite Ho | done]. }
  destruct (orb_node orb (move_orb dt orb w)) as [nd|];
    [|intros [= <- <-]; exact Hmove].
  destruct (fle _ _); [|intros [= <- <-]; exact Hmove].
  assert (Hz : R w (setZ nd (lit 0) (move_orb dt orb w))).
  { eapply R_trans; [exact Hmove | by apply R_count]. }
  destruct (Escaping.trigger_from _ _ _ _ _ _) as [[w3 [[]|exc|exc]]|] eqn:Htrig;
    [| | |done]; intros [= <- <-];
    (eapply R_trans; [exact Hz|]);
    pose proof (trigger_from_rel _ _ _ _ _ _ _ Htrig) as Hdisp;
    [|exact Hdisp..].
  eapply R_trans; [exact Hdisp|].
  apply R_count; try done. unfold stop_orb. cbn. apply length_alter.
Qed.

Lemma physics_from_rel fuel dt i (w w' : MagicEditor F) r :
  Escaping.physics_from run_cb fuel dt i w = Some (w', r) -> R w w'.
Proof.
  revert i w. induction fuel as [|fuel IH]; intros i w; simpl; [done|].
  destruct (orbs w !! i); [|intros [= <- <-]; apply R_refl].
  destruct (Escaping.step_orb _ _ _ _ _) as [[w1 [[]|exc|exc]]|] eqn:Hstep;
    [| | |done].
  - intros Hrest. eapply R_trans; [eapply step_orb_rel, Hstep|].
    eapply IH, Hrest.
  - intros [= <- <-]. eapply step_orb_rel, Hstep.
  - intros [= <- <-]. eapply step_orb_rel, Hstep.
Qed.

End Relations.

(** ** The ledger invariant *)

(** C9, as the code has it: mana, fire and water are not negative in the
    initial state (100, 50, 50), and [create_orb], [use_fire], [use_water],
    [apply_force_to] and [on_event] keep them so: a spend below the cost is
    refused.  The physics task and [trigger_event] do not touch the ledger
    themselves: they leave the player as the callbacks they call leave it.
    So they keep the balances non-negative when the callbacks do, and then no
    state reached through these operations has a negative balance. *)
Theorem balances_never_negative :
  nonneg (initial (F := F))
  /\ (forall force (w : MagicEditor F),
        nonneg w -> nonneg (fst (create_orb force w)))
  /\ (forall orb (w : MagicEditor F), nonneg w -> nonneg (fst (use_fire orb w)))
  /\ (forall orb (w : MagicEditor F), nonneg w -> nonneg (fst (use_water orb w)))
  /\ (forall e force (w : MagicEditor F),
        nonneg w -> nonneg (fst (apply_force_to e force w)))
  /\ (forall event_type callback (w : MagicEditor F),
        nonneg w -> nonneg (fst (on_event event_type callback w)))
  /\ ((forall cb args (w0 : MagicEditor F),
         player (fst (run_cb cb args w0)) = player w0) ->
      (forall fuel dt (w w' : MagicEditor F) r,
         Escaping.update_physics run_cb fuel dt w = Some (w', r) ->
         player w' = player w)
      /\ (forall fuel event_type args (w w' : MagicEditor F) r,
            Escaping.trigger_event run_cb fuel event_type args w = Some (w', r) ->
            player w' = player w))
  /\ ((forall cb args (w0 : MagicEditor F),
         nonneg w0 -> nonneg (fst (run_cb cb args w0))) ->
      (forall fuel dt (w w' : MagicEditor F) r,
         nonneg w -> Escaping.update_physics run_cb fuel dt w = Some (w', r) ->
         nonneg w')
      /\ (forall fuel event_type args (w w' : MagicEditor F) r,
            nonneg w ->
            Escaping.trigger_event run_cb fuel event_type args w = Some (w', r) ->
            nonneg w')
      /\ (forall w, Escaping.reachable run_cb w -> nonneg w)).
Proof.
  split; [apply initial_nonneg|].
  split; [intros; by apply create_orb_nonneg|].
  split; [intros; by apply use_fire_nonneg|].
  split; [intros; by apply use_water_nonneg|].
  split; [intros; by apply apply_force_to_nonneg|].
  split; [intros; by apply on_event_nonneg|].
  split.
  - intros Hcb. split.
    + intros fuel dt w w' r.
      apply (physics_from_rel (fun w0 w1 : MagicEditor F => player w1 = player w0));
        try done; congruence.
    + intros fuel event_type args w w' r.
      apply (trigger_from_rel (fun w0 w1 : MagicEditor F => player w1 = player w0));
        try done; congruence.
  - intros Hcb.
    assert (Hphys : forall fuel dt (w w' : MagicEditor F) r,
              nonneg w ->
              Escaping.update_physics run_cb fuel dt w = Some (w', r) ->
              nonneg w').
    { intros fuel dt w w' r Hw Hrun. revert Hw.
      apply (physics_from_rel (fun w0 w1 : MagicEditor F => nonneg w0 -> nonneg w1))
        with (fuel := fuel) (dt := dt) (i := 0) (r := r);
        [tauto | tauto | | done | exact Hrun].
      unfold nonneg. by intros w0 w1 -> _ _. }
    assert (Htrig : forall fuel event_type args (w w' : MagicEditor F) r,
              nonneg w ->
              Escaping.trigger_event run_cb fuel event_type args w = Some (w', r) ->
              nonneg w').
    { intros fuel event_type args w w' r Hw Hrun. revert Hw.
      apply (trigger_from_rel (fun w0 w1 : MagicEditor F => nonneg w0 -> nonneg w1))
        with (fuel := fuel) (event_type := event_type) (args := args)
             (i := 0) (r := r);
        [tauto | tauto | | done | exact Hrun].
      unfold nonneg. by intros w0 w1 -> _ _. }
    split; [exact Hphys|]. split; [exact Htrig|].
    induction 1.
    + apply initial_nonneg.
    + by apply create_orb_nonneg.
    + by apply use_fire_nonneg.
    + by apply use_water_nonneg.
    + by apply apply_force_to_nonneg.
    + by apply on_event_nonneg.
    + eapply Hphys; eassumption.
    + eapply Htrig; eassumption.
Qed.

(** ** The impact *)


End Escapes.


(** * The properties on the sample states *)

#[local] Existing Instance Q_scalar.


Lemma spend_contract_witness :
  create_orb (FSeq 0%Q 0%Q 1%Q) drained
  = (drained, Raise (RuntimeError "Not enough mana to create orb"))
  /\ (exists w', use_fire 0 drained = (w', Ok tt)
                 /\ fire (player w') = 45%Z
                 /\ mana (player w') = 0%Z /\ water (player w') = 0%Z)
  /\ use_water 0 drained
     = (drained, Raise (RuntimeError "Not enough water energy")).
Proof.
  destruct (spend_contract drained (FSeq 0%Q 0%Q 1%Q) 0)
    as (Hm & _ & _ & Hf & Hw & _).
  split; [apply Hm; vm_compute; reflexivity|].
  split; [|apply Hw; vm_compute; reflexivity].
  destruct Hf as (w' & Hrun & H1 & H2 & H3); [vm_compute; discriminate|].
  exists w'. split; [exact Hrun|]. split; [exact H1|]. split; [exact H2|exact H3].
Defined.

Lemma create_orb_spec_witness :
  exists w',
    create_orb (FSeq 0%Q 0%Q 1%Q) last_orb = (w', Ok 9)
    /\ mana (player w') = 0%Z
    /\ create_orb (FSeq 0%Q 0%Q 1%Q) w'
       = (w', Raise (RuntimeError "Not enough mana to create orb")).
Proof.
  destruct (create_orb_spec (FSeq 0%Q 0%Q 1%Q) last_orb)
    as (w' & o & Hrun & _ & _ & _ & _ & _ & Hlast);
    [vm_compute; discriminate|].
  destruct Hlast as [Hzero Hfail]; [vm_compute; reflexivity|].
  exists w'. split; [exact Hrun|]. split; [exact Hzero|]. apply Hfail.
Defined.

Lemma use_fire_then_use_water_witness :
  exists w1 w2,
    use_fire 0 falling = (w1, Ok tt)
    /\ element <$> orbs w1 !! 0 = Some (Some Fire)
    /\ use_water 0 w1 = (w2, Ok tt)
    /\ element <$> orbs w2 !! 0 = Some (Some Water)
    /\ fire (player w2) = 45%Z /\ water (player w2) = 45%Z.
Proof.
  destruct (use_fire_then_use_water 0
              (mkOrb (mkEntity "orb" 2 5) None) falling)
    as (w1 & Hrun1 & Hel1 & _ & _ & Hnext);
    [vm_compute; reflexivity | vm_compute; discriminate |].
  destruct Hnext as (w2 & Hrun2 & Hel2 & Hw & Hf); [vm_compute; discriminate|].
  exists w1, w2. repeat split; assumption.
Defined.

Lemma physics_update_order_witness :
  getPos 2 (move_orb 1%Q 0 falling) = mkVec3 0%Q 2%Q (-7 # 2)%Q
  /\ vget (move_orb 1%Q 0 falling) 5 = mkVec3 0%Q 0%Q (-49 # 10)%Q
  /\ vget (move_orb (1 # 60)%Q 0 falling) 5 = vget (move_orb 1%Q 0 falling) 5
  /\ step_orb demo_cb 1 1%Q 0 floating = Some (move_orb 1%Q 0 floating, Ok tt).
Proof.
  destruct (physics_update_order demo_cb 1 1%Q (1 # 60)%Q 0
              (mkOrb (mkEntity "orb" 2 5) None) falling)
    as (Hpos & Hvel & Hdt & _);
    [vm_compute; reflexivity | vm_compute; lia | vm_compute; lia |].
  destruct (physics_update_order demo_cb 1 1%Q 1%Q 0
              (mkOrb (mkEntity "orb" 2 5) None) floating)
    as (_ & _ & _ & _ & Hclear & _);
    [vm_compute; reflexivity | vm_compute; lia | vm_compute; lia |].
  split; [exact Hpos|]. split; [exact Hvel|]. split; [exact Hdt|].
  apply Hclear. vm_compute. reflexivity.
Defined.

(** C5, where the code differs: an orb created with force (0, 0, -5) hits the
    ground in the first tick, which calls the registered impact callback
    once (the player's velocity, in which callback 0 counts, is (1, 0, 0))
    and leaves the orb at height 0 with velocity zero; the second tick calls
    the callback again for the orb at rest (the count is 2). *)
Theorem impact_fires_again_at_rest :
  exists w1 w2,
    update_physics demo_cb 5 1%Q watched = Some (w1, Ok tt)
    /\ getZ 2 w1 = 0%Q
    /\ orb_velocity 0 w1 = Some (mkVec3 0%Q 0%Q 0%Q)
    /\ vget w1 1 = mkVec3 1%Q 0%Q 0%Q
    /\ update_physics demo_cb 5 1%Q w1 = Some (w2, Ok tt)
    /\ vget w2 1 = mkVec3 2%Q 0%Q 0%Q
    /\ (calls demo_cb 5 "impact" impact_args
          (setZ 2 0%Q (move_orb 1%Q 0 w1))).*1 = [0].
Proof.
  eexists _, _.
  split; [vm_compute; reflexivity|].
  split; [vm_compute; reflexivity|].
  split; [vm_compute; reflexivity|].
  split; [vm_compute; reflexivity|].
  split; [vm_compute; reflexivity|].
  split; vm_compute; reflexivity.
Qed.









Lemma leaving_player cb args (w : MagicEditor Q) :
  player (fst (leaving cb args w)) = player w.
Proof. by destruct cb as [|[|[|[|cb]]]]. Qed.

Lemma leaving_nonneg cb args (w : MagicEditor Q) :
  nonneg w -> nonneg (fst (leaving cb args w)).
Proof. unfold nonneg. by rewrite leaving_player. Qed.

Lemma balances_never_negative_witness :
  nonneg start /\ nonneg drained
  /\ (forall w' r,
        Escaping.update_physics leaving 5 1%Q watched = Some (w', r) ->
        nonneg w' /\ player w' = player watched).
Proof.
  destruct (balances_never_negative leaving)
    as (Hinit & Hcreate & _ & Hwater & _ & Hon & Hsame & Hkeep).
  destruct (Hsame leaving_player) as (Hplayer & _).
  destruct (Hkeep leaving_nonneg) as (Hphys & _).
  split; [exact Hinit|]. split.
  - cbv beta iota delta [drained Nat.iter nat_rect].
    repeat first [apply Hwater | apply Hcreate]. exact Hinit.
  - intros w' r Hrun. split.
    + apply (Hphys _ _ _ _ _ (Hon _ _ _ (Hcreate _ _ Hinit)) Hrun).
    + apply (Hplayer _ _ _ _ _ Hrun).
Defined.

(** C9, where the code differs: the impact callback is [player.mana -= 1000]
    (callbacks are spell code, which is handed the player object itself).
    The state is reached by [create_orb] and [on_event] and has balances
    90, 50, 50; the physics tick in which the orb hits the ground leaves the
    mana at -910. *)
Lemma callback_overdraws_ledger :
  Escaping.reachable thief watched
  /\ nonneg watched
  /\ exists w1,
       Escaping.update_physics thief 5 1%Q watched = Some (w1, Returns tt)
       /\ Escaping.reachable thief w1
       /\ mana (player w1) = (-910)%Z
       /\ ~ nonneg w1.
Proof.
  assert (Hreach : Escaping.reachable thief watched).
  { apply (Escaping.reach_on_event thief "impact" 0 falling).
    apply (Escaping.reach_create_orb thief (FSeq 0%Q 0%Q (-5 # 1)%Q) start).
    apply Escaping.reach_initial. }
  assert (Hrun : exists w1,
            Escaping.update_physics thief 5 1%Q watched = Some (w1, Returns tt)
            /\ mana (player w1) = (-910)%Z).
  { eexists. split; vm_compute; reflexivity. }
  destruct Hrun as (w1 & Hrun & Hmana).
  split; [exact Hreach|]. split; [vm_compute; intuition discriminate|].
  exists w1. split; [exact Hrun|].
  split; [exact (Escaping.reach_update_physics thief _ _ _ _ _ Hreach Hrun)|].
  split; [exact Hmana|].
  intros (Hm & _). rewrite Hmana in Hm. lia.
Qed.




(** ** The further properties on the sample states *)


Lemma apply_force_to_adds_witness :
  exists w1 w2,
    apply_force_to EPlayer (FSeq 1%Q 0%Q 0%Q) start = (w1, Ok tt)
    /\ apply_force_to EPlayer (FSeq 0%Q 2%Q 0%Q) w1 = (w2, Ok tt)
    /\ vget w2 1 = mkVec3 1%Q 2%Q 0%Q.
Proof.
  destruct (apply_force_to_adds EPlayer (mkEntity "player" 1 1)
              (FSeq 1%Q 0%Q 0%Q) (FSeq 0%Q 2%Q 0%Q) start)
    as (w1 & w2 & Hrun1 & _ & _ & _ & _ & _ & _ & Hrun2 & Hsum);
    [reflexivity | vm_compute; lia |].
  exists w1, w2. split; [exact Hrun1|]. split; [exact Hrun2|]. exact Hsum.
Defined.

Lemma create_orb_shares_vector_witness :
  exists w1 o,
    create_orb (FVec3 1) start = (w1, Ok 0)
    /\ orbs w1 !! 0 = Some o
    /\ velocity (orb_entity o) = 1
    /\ orb_velocity 0 (fst (apply_force_to EPlayer (FSeq 1%Q 0%Q 0%Q) w1))
       = Some (mkVec3 1%Q 0%Q 0%Q).
Proof.
  destruct (create_orb_shares_vector EPlayer (mkEntity "player" 1 1) start)
    as (w1 & o & Hrun & Ho & Hvel & _ & Hforce);
    [vm_compute; discriminate | reflexivity | vm_compute; lia |].
  exists w1, o. split; [exact Hrun|]. split; [exact Ho|]. split; [exact Hvel|].
  exact (Hforce (FSeq 1%Q 0%Q 0%Q)).
Defined.

Lemma create_orb_fresh_vector_witness :
  exists w1,
    create_orb (FSeq 0%Q 0%Q 1%Q) start = (w1, Ok 0)
    /\ orb_velocity 0 (fst (apply_force_to EPlayer (FSeq 1%Q 0%Q 0%Q) w1))
       = Some (mkVec3 0%Q 0%Q 1%Q).
Proof.
  destruct (create_orb_fresh_vector 0%Q 0%Q 1%Q EPlayer
              (mkEntity "player" 1 1) start)
    as (w1 & Hrun & _ & Hforce);
    [vm_compute; discriminate | reflexivity | vm_compute; lia |].
  exists w1. split; [exact Hrun|]. exact (Hforce (FSeq 1%Q 0%Q 0%Q)).
Defined.


Lemma update_physics_calls_impact_only_witness :
  update_physics demo_cb 3 1%Q bystander
  = update_physics (fun _ _ w => (w, Ok tt)) 3 1%Q bystander
  /\ exists w', update_physics demo_cb 3 1%Q bystander = Some (w', Ok tt)
                /\ player w' = player bystander.
Proof.
  destruct (update_physics_calls_impact_only demo_cb
              (fun _ _ w => (w, Ok tt)) 3 1%Q bystander)
    as [Hsame Hends]; [reflexivity|].
  split; [exact Hsame|].
  destruct Hends as (w' & Hrun & Hp & _); [vm_compute; lia|].
  exists w'. split; [exact Hrun | exact Hp].
Defined.


Lemma free_flight_tick_witness :
  exists w',
    update_physics demo_cb 3 1%Q two_floating = Some (w', Ok tt)
    /\ getPos 2 w' = mkVec3 0%Q 2%Q (1 # 2)%Q
    /\ getPos 3 w' = mkVec3 1%Q 2%Q (3 # 2)%Q
    /\ vget w' 5 = mkVec3 0%Q 0%Q (-49 # 50)%Q
    /\ vget w' 7 = mkVec3 (49 # 50)%Q 0%Q 0%Q.
Proof.
  destruct (free_flight_tick demo_cb 3 1%Q two_floating)
    as (w' & Hrun & _ & _ & _ & Horbs & _).
  - split; [|split].
    + change (NoDup [2; 3]).
      apply NoDup_cons. split; [|apply NoDup_singleton].
      rewrite elem_of_cons, elem_of_nil. intros [?|[]]. discriminate.
    + change (NoDup [5; 7]).
      apply NoDup_cons. split; [|apply NoDup_singleton].
      rewrite elem_of_cons, elem_of_nil. intros [?|[]]. discriminate.
    + intros [|[|i]] o; vm_compute; intros [= <-]; lia.
  - intros [|[|i]] o; vm_compute; intros [= <-]; reflexivity.
  - vm_compute. lia.
  - destruct (Horbs 0 (mkOrb (mkEntity "orb" 2 5) None) eq_refl) as [Hp0 Hv0].
    destruct (Horbs 1 (mkOrb (mkEntity "orb" 3 7) None) eq_refl) as [Hp1 Hv1].
    exists w'. split; [exact Hrun|]. split; [exact Hp0|]. split; [exact Hp1|].
    split; [exact Hv0 | exact Hv1].
Defined.

Lemma shared_vector_damped_twice_witness :
  getPos 2 (move_orb 1%Q 1 (move_orb 1%Q 0 twins)) = mkVec3 0%Q 2%Q (1 # 2)%Q
  /\ getPos 3 (move_orb 1%Q 1 (move_orb 1%Q 0 twins))
     = mkVec3 0%Q 2%Q (13 # 25)%Q
  /\ vget (move_orb 1%Q 1 (move_orb 1%Q 0 twins)) 5
     = mkVec3 0%Q 0%Q (-2401 # 2500)%Q.
Proof.
  destruct (shared_vector_damped_twice 1%Q 0 1
              (mkOrb (mkEntity "orb" 2 5) None) (mkOrb (mkEntity "orb" 3 5) None)
              twins) as (Hfirst & Hsecond & Hvec);
    [reflexivity | reflexivity | reflexivity | simpl; lia
    | vm_compute; lia | vm_compute; lia | vm_compute; lia |].
  split; [|split].
  - etrans; [exact Hfirst | vm_compute; reflexivity].
  - etrans; [exact Hsecond | vm_compute; reflexivity].
  - etrans; [exact Hvec | vm_compute; reflexivity].
Defined.

Lemma impact_rebinds_velocity_witness :
  exists w',
    step_orb demo_cb 1 1%Q 0 falling = Some (w', Ok tt)
    /\ getPos 2 w' = mkVec3 0%Q 2%Q 0%Q
    /\ orb_velocity 0 w' = Some (mkVec3 0%Q 0%Q 0%Q)
    /\ vget w' 5 = mkVec3 0%Q 0%Q (-49 # 10)%Q.
Proof.
  destruct (impact_rebinds_velocity demo_cb 0 1%Q 0
              (mkOrb (mkEntity "orb" 2 5) None) falling)
    as (w' & Hrun & Hpos & _ & Hzero & Hold);
    [reflexivity | vm_compute; lia | vm_compute; lia | reflexivity
    | vm_compute; reflexivity |].
  exists w'. split; [exact Hrun|]. split; [exact Hpos|].
  split; [exact Hzero | exact Hold].
Defined.

Lemma orb_then_fire_outcomes_witness :
  msg_var (fst (cast_spell example_spell start)) = "Spell cast successfully"
  /\ mana (player (fst (cast_spell example_spell start))) = 90%Z
  /\ fire (player (fst (cast_spell example_spell start))) = 45%Z
  /\ fst (cast_spell example_spell drained)
     = update_stats (set_msg_var "Error: Not enough mana to create orb" drained).
Proof.
  destruct (orb_then_fire_outcomes (FSeq 10%Q 0%Q 15%Q) start)
    as (_ & _ & Hok).
  destruct (orb_then_fire_outcomes (FSeq 10%Q 0%Q 15%Q) drained)
    as (Hlow & _).
  destruct Hok as (Hmsg & Hm & Hf & _);
    [vm_compute; discriminate | vm_compute; discriminate |].
  split; [exact Hmsg|]. split; [exact Hm|]. split; [exact Hf|].
  apply Hlow. vm_compute. reflexivity.
Defined.


